(** * Match Viewer (pwa/app.js): a shallow embedding and its properties

    The page script fetches a JSON payload, normalises loosely shaped match
    records through fallback chains and writes text into five fixed DOM
    nodes.  The embedding follows the script:

    - [Js]: the JSON values the script receives and the language operators
      it applies to them ([||], [??], [?.], [== null], template-literal
      string conversion, [Array.isArray], [for ... of]);
    - [Clock]: [Date.prototype.toISOString] and the script's
      [toLocalISODate];
    - the DOM nodes as a record [page], and the script's functions over it
      as programs in a state-and-exception monad (a throw keeps the DOM
      writes made before it, as in the browser);
    - [fetchJSON] and the two actions, both run to completion against the
      outcome of one request and as tasks suspended at their [await]s,
      resumed by the page's events ([step]);
    - the properties, each claim under its number. *)

From Stdlib Require Import String Ascii List ZArith Bool Lia DecimalString.
Import ListNotations.
Set Warnings "-register-all".
Local Open Scope list_scope.
Local Open Scope string_scope.

(** ** Exceptions *)

(** Property names the script reads. *)
Module K.
Inductive key : Type :=
| date | matches | length
| date_utc | kickoff
| league_name | league | name | competition
| home_team | home | away_team | away | teams
| home_goals | away_goals.

Definition text (k : key) : string :=
  match k with
  | date => "date" | matches => "matches" | length => "length"
  | date_utc => "date_utc" | kickoff => "kickoff"
  | league_name => "league_name" | league => "league" | name => "name"
  | competition => "competition"
  | home_team => "home_team" | home => "home"
  | away_team => "away_team" | away => "away" | teams => "teams"
  | home_goals => "home_goals" | away_goals => "away_goals"
  end.
End K.

(** Errors the engine itself raises; their message text is the engine's. *)
Inductive engine_error : Type :=
| ReadOfNullish (k : K.key)   (* TypeError: [null.k] or [undefined.k] *)
| NotIterable                 (* TypeError: [for ... of] over a non-iterable *)
| NoPrimitive                 (* TypeError: object without a usable toString *)
| InvalidTime.                (* RangeError: toISOString of an invalid time *)

Inductive exn : Type :=
| Thrown (message : string)    (* [throw new Error(message)], line 45 *)
| Engine (e : engine_error)
| Rejected (message : string). (* rejection reason of fetch() or json() *)

Inductive result (A : Type) : Type :=
| Ok (a : A)
| Throw (e : exn).
Arguments Ok {A} a.
Arguments Throw {A} e.

Definition rbind {A B : Type} (r : result A) (f : A -> result B) : result B :=
  match r with
  | Ok a => f a
  | Throw e => Throw e
  end.

Declare Scope result_scope.
Delimit Scope result_scope with result.
Notation "x <- r ;; k" := (rbind r (fun x => k))
  (at level 61, r at next level, right associativity) : result_scope.

(** ** JSON values and the operators applied to them *)
Module Js.

(** What [res.json()] can produce, plus [undefined].  [JNum] carries the
    integral numbers (goal counts, lengths, timestamps); [JObj] lists an
    object's own properties (keys distinct, as [JSON.parse] leaves them). *)
Inductive value : Type :=
| JUndefined
| JNull
| JBool (b : bool)
| JNum (n : Z)
| JStr (s : string)
| JArr (items : list value)
| JObj (props : list (string * value)).

(** [v == null] *)
Definition nullish (v : value) : bool :=
  match v with
  | JUndefined | JNull => true
  | _ => false
  end.

(** ToBoolean *)
Definition truthy (v : value) : bool :=
  match v with
  | JUndefined | JNull => false
  | JBool b => b
  | JNum n => negb (n =? 0)%Z
  | JStr s => negb (s =? "")
  | JArr _ | JObj _ => true
  end.

(** [a || b] and [a ?? b]; every right operand in the script is free of
    effects, so evaluating it eagerly changes nothing. *)
Definition or_else (a b : value) : value := if truthy a then a else b.
Definition coalesce (a b : value) : value := if nullish a then b else a.

Infix "'||'" := or_else (at level 50, left associativity).
Infix "'??'" := coalesce (at level 50, left associativity).

Definition isArray (v : value) : bool :=
  match v with
  | JArr _ => true
  | _ => false
  end.

Fixpoint lookup (key : string) (props : list (string * value)) : value :=
  match props with
  | [] => JUndefined
  | (k, v) :: rest => if k =? key then v else lookup key rest
  end.

Definition has_own (key : string) (props : list (string * value)) : bool :=
  existsb (fun p => fst p =? key) props.

(** Number of UTF-16 code units of a string held as UTF-8 bytes: a lead byte
    of a four-byte sequence stands for a surrogate pair, a continuation byte
    for nothing. *)
Definition utf16_units (c : ascii) : nat :=
  let b := nat_of_ascii c in
  if Nat.ltb b 128 then 1
  else if Nat.ltb b 192 then 0
  else if Nat.ltb b 240 then 1
  else 2.

Fixpoint utf16_length (s : string) : nat :=
  match s with
  | EmptyString => 0
  | String c rest => utf16_units c + utf16_length rest
  end.

(** [v.k] for a receiver that is neither null nor undefined.  None of the
    names in [K.key] is a prototype member of Object, Array, String, Number
    or Boolean except [length]. *)
Definition get (v : value) (k : K.key) : value :=
  match v with
  | JObj props => lookup (K.text k) props
  | JArr items =>
      match k with
      | K.length => JNum (Z.of_nat (List.length items))
      | _ => JUndefined
      end
  | JStr s =>
      match k with
      | K.length => JNum (Z.of_nat (utf16_length s))
      | _ => JUndefined
      end
  | _ => JUndefined
  end.

(** [v.k] *)
Definition member (v : value) (k : K.key) : result value :=
  if nullish v then Throw (Engine (ReadOfNullish k)) else Ok (get v k).

(** [v?.k] *)
Definition opt_member (v : value) (k : K.key) : value :=
  if nullish v then JUndefined else get v k.

(** Number::toString of an integer the engine holds exactly: its decimal
    digits.  It is the engine's text for the integers up to 2^53 - 1 in
    magnitude ([safe_integer] below); a larger number is a rounded double
    whose digits differ and which prints in exponent form from 10^21 on, so
    statements about the text of a number are made for safe integers. *)
Definition dec (n : Z) : string := NilZero.string_of_int (Z.to_int n).

(** ToString, as a template literal applies it.  An array joins its
    elements with commas, null and undefined elements as empty text.  An
    object prints as [[object Object]] through Object.prototype.toString;
    one with an own [toString] property (never callable in parsed JSON) has
    no primitive conversion and the engine throws. *)
Fixpoint to_string (v : value) : result string :=
  match v with
  | JUndefined => Ok "undefined"
  | JNull => Ok "null"
  | JBool b => Ok (if b then "true" else "false")
  | JNum n => Ok (dec n)
  | JStr s => Ok s
  | JArr items =>
      (x <- (fix each (l : list value) : result (list string) :=
               match l with
               | [] => Ok []
               | e :: rest =>
                   (s <- (if nullish e then Ok "" else to_string e) ;;
                    ss <- each rest ;;
                    Ok (s :: ss))%result
               end) items ;;
       Ok (String.concat "," x))%result
  | JObj props =>
      if has_own "toString" props then Throw (Engine NoPrimitive)
      else Ok "[object Object]"
  end.

(** ToPrimitive, as [new Date(v)] applies it: an object or array becomes
    its string conversion, a primitive stays. *)
Definition to_primitive (v : value) : result value :=
  match v with
  | JArr _ | JObj _ => (s <- to_string v ;; Ok (JStr s))%result
  | _ => Ok v
  end.

(** The code points of a string held as UTF-8 bytes, each as a string. *)
Definition continuation (c : ascii) : bool :=
  let b := nat_of_ascii c in Nat.leb 128 b && Nat.ltb b 192.

Definition starts_in_sequence (s : string) : bool :=
  match s with
  | String c _ => continuation c
  | EmptyString => false
  end.

Fixpoint code_points (s : string) : list string :=
  match s with
  | EmptyString => []
  | String c rest =>
      if starts_in_sequence rest then
        match code_points rest with
        | p :: ps => String c p :: ps
        | [] => [String c ""]
        end
      else String c "" :: code_points rest
  end.

(** The values [for (const m of v)] visits. *)
Definition iterate (v : value) : result (list value) :=
  match v with
  | JArr items => Ok items
  | JStr s => Ok (map JStr (code_points s))
  | _ => Throw (Engine NotIterable)
  end.

End Js.
Import Js.

(** ** Dates *)
Module Clock.
Local Open Scope Z_scope.

Definition ms_per_day : Z := 86400000.

(** Largest time value a Date holds (ECMAScript's TimeClip bound). *)
Definition max_time : Z := 8640000000000000.

(** Year, month and day of the proleptic Gregorian calendar for a day
    number counted from 1970-01-01. *)
Definition civil_from_days (days : Z) : Z * Z * Z :=
  let z := days + 719468 in
  let era := z / 146097 in
  let doe := z - era * 146097 in
  let yoe := (doe - doe / 1460 + doe / 36524 - doe / 146096) / 365 in
  let doy := doe - (365 * yoe + yoe / 4 - yoe / 100) in
  let mp := (5 * doy + 2) / 153 in
  let d := doy - (153 * mp + 2) / 5 + 1 in
  let m := if mp <? 10 then mp + 3 else mp - 9 in
  let y := yoe + era * 400 + (if m <=? 2 then 1 else 0) in
  (y, m, d).

Definition digit (d : Z) : ascii := ascii_of_nat (48 + Z.to_nat d).

(** [n] printed on [width] decimal digits, zero padded. *)
Fixpoint padded (width : nat) (n : Z) : string :=
  match width with
  | O => ""
  | S w => (padded w (n / 10) ++ String (digit (n mod 10)) "")%string
  end.

(** Four digits for the years 0 to 9999, a sign and six digits beyond. *)
Definition year_text (y : Z) : string :=
  if (0 <=? y) && (y <=? 9999) then padded 4 y
  else ((if (y <? 0)%Z then "-" else "+") ++ padded 6 (Z.abs y))%string.

(** [new Date(t).toISOString()] *)
Definition toISOString (t : Z) : result string :=
  if Z.abs t <=? max_time then
    let '(y, m, d) := civil_from_days (t / ms_per_day) in
    let ms := t mod ms_per_day in
    Ok (year_text y ++ "-" ++ padded 2 m ++ "-" ++ padded 2 d
        ++ "T" ++ padded 2 (ms / 3600000)
        ++ ":" ++ padded 2 (ms / 60000 mod 60)
        ++ ":" ++ padded 2 (ms / 1000 mod 60)
        ++ "." ++ padded 3 (ms mod 1000) ++ "Z")%string
  else Throw (Engine InvalidTime).

(** What the browser contributes: the clock, the time zone, the locale's
    date format and the wording of the engine's own errors. *)
Record env : Type := {
  now : Z;                               (* Date.now(), ms since the epoch *)
  tz_offset : Z -> Z;                    (* getTimezoneOffset() at a time, minutes *)
  locale_string : value -> string;       (* new Date(p).toLocaleString(), p primitive *)
  engine_message : engine_error -> string
}.

(** [toLocalISODate(d)], lines 22-26. *)
Definition toLocalISODate_of (e : env) (d : Z) : result string :=
  let tz := tz_offset e d * 60000 in
  (s <- toISOString (d - tz) ;; Ok (substring 0 10 s))%result.

(** [toLocalISODate()]: the default argument is [new Date()]. *)
Definition toLocalISODate (e : env) : result string :=
  toLocalISODate_of e (now e).

End Clock.
Import Clock.

(** ** The page *)

(** The five DOM nodes of lines 15-19, by the attributes the script touches,
    and the developer console.  A list item is its text content. *)
Record page : Type := {
  date_value : string;          (* $date.value *)
  btnToday_disabled : bool;     (* $btnToday.disabled *)
  btnLoad_disabled : bool;      (* $btnLoad.disabled *)
  status_text : string;         (* $status.textContent *)
  list_items : list string;     (* children of $list *)
  console : list exn            (* console.error, oldest first *)
}.

(** Script code: it reads and writes the page and may throw; what it wrote
    before a throw stays written. *)
Definition script (A : Type) : Type := page -> page * result A.

Definition ret {A : Type} (a : A) : script A := fun p => (p, Ok a).

Definition bind {A B : Type} (c : script A) (f : A -> script B) : script B :=
  fun p =>
    match c p with
    | (p', Ok a) => f a p'
    | (p', Throw e) => (p', Throw e)
    end.

Definition lift {A : Type} (r : result A) : script A := fun p => (p, r).

Declare Scope script_scope.
Delimit Scope script_scope with script.
Notation "x <- c ;; k" := (bind c (fun x => k))
  (at level 61, c at next level, right associativity) : script_scope.
Notation "c ;; k" := (bind c (fun _ => k))
  (at level 61, right associativity) : script_scope.

(** [try { body } catch (err) { handler(err) } finally { cleanup }] for a
    handler and a cleanup that do not throw. *)
Definition try_catch_finally (body : script unit) (handler : exn -> page -> page)
    (cleanup : page -> page) : page -> page :=
  fun p =>
    match body p with
    | (p', Ok _) => cleanup p'
    | (p', Throw e) => cleanup (handler e p')
    end.

Definition set_date_value (v : string) (p : page) : page :=
  {| date_value := v;
     btnToday_disabled := btnToday_disabled p;
     btnLoad_disabled := btnLoad_disabled p;
     status_text := status_text p;
     list_items := list_items p;
     console := console p |}.

(** [setStatus(msg)], line 28. *)
Definition setStatus (msg : string) (p : page) : page :=
  {| date_value := date_value p;
     btnToday_disabled := btnToday_disabled p;
     btnLoad_disabled := btnLoad_disabled p;
     status_text := msg;
     list_items := list_items p;
     console := console p |}.

(** [setLoading(on)], lines 30-33. *)
Definition setLoading (on : bool) (p : page) : page :=
  {| date_value := date_value p;
     btnToday_disabled := on;
     btnLoad_disabled := on;
     status_text := status_text p;
     list_items := list_items p;
     console := console p |}.

Definition set_list (items : list string) (p : page) : page :=
  {| date_value := date_value p;
     btnToday_disabled := btnToday_disabled p;
     btnLoad_disabled := btnLoad_disabled p;
     status_text := status_text p;
     list_items := items;
     console := console p |}.

(** [$list.innerHTML = ""] *)
Definition clear_list : page -> page := set_list [].

(** [li(text)], lines 35-39: a list item, held as its text content. *)
Definition li (text : string) : string := text.

(** [$list.appendChild(el)] *)
Definition appendChild (el : string) (p : page) : page :=
  set_list (list_items p ++ [el]) p.

(** [console.error(err)] *)
Definition console_error (err : exn) (p : page) : page :=
  {| date_value := date_value p;
     btnToday_disabled := btnToday_disabled p;
     btnLoad_disabled := btnLoad_disabled p;
     status_text := status_text p;
     list_items := list_items p;
     console := console p ++ [err] |}.

Definition write (f : page -> page) : script unit := fun p => (f p, Ok tt).

(** ** Rendering, lines 51-85 *)

Definition no_matches_text : string := "No matches for this date.".

(** Line 65: the argument of [new Date(...)]. *)
Definition when_arg (e : env) (m : value) : value :=
  get m K.date_utc '||' get m K.date '||' get m K.kickoff '||' JNum (now e).

(** Lines 68-72. *)
Definition league_of (m : value) : value :=
  get m K.league_name
  '||' opt_member (get m K.league) K.name
  '||' get m K.competition
  '||' JStr "—".

(** Lines 74-75. *)
Definition home_of (m : value) : value :=
  get m K.home_team '||' get m K.home
  '||' opt_member (opt_member (get m K.teams) K.home) K.name
  '||' JStr "Home".

Definition away_of (m : value) : value :=
  get m K.away_team '||' get m K.away
  '||' opt_member (opt_member (get m K.teams) K.away) K.name
  '||' JStr "Away".

(** Lines 77-80. *)
Definition score_of (m : value) : result string :=
  if nullish (get m K.home_goals) || nullish (get m K.away_goals)
  then Ok "vs"
  else (h <- to_string (get m K.home_goals) ;;
        a <- to_string (get m K.away_goals) ;;
        Ok (h ++ "–" ++ a))%result.

(** The body of the loop, lines 65-82, as the text of the appended item.
    The first property read, [m.date_utc], throws when [m] is null or
    undefined; past it no read can throw. *)
Definition render_line (e : env) (m : value) : result string :=
  (_ <- member m K.date_utc ;;
   p <- to_primitive (when_arg e m) ;;
   let timeLocal := locale_string e p in
   score <- score_of m ;;
   league <- to_string (league_of m) ;;
   home <- to_string (home_of m) ;;
   away <- to_string (away_of m) ;;
   Ok ("[" ++ league ++ "] " ++ home ++ " " ++ score ++ " " ++ away
       ++ " — " ++ timeLocal))%result.

(** Line 53: [payload?.date ?? toLocalISODate()]; the clock is read only
    when the payload carries no date. *)
Definition display_date (e : env) (payload : value) : result value :=
  let d := opt_member payload K.date in
  if nullish d then (s <- toLocalISODate e ;; Ok (JStr s))%result else Ok d.

(** Line 54. *)
Definition resolve_matches (payload : value) : value :=
  if isArray payload then payload
  else opt_member payload K.matches '??' JArr [].

(** Line 57: the status line. *)
Definition status_line (date matches : value) : result string :=
  (d <- to_string date ;;
   n <- to_string (get matches K.length) ;;
   Ok ("date: " ++ d ++ " • matches: " ++ n))%result.

(** Lines 64-84: [for (const m of items)]. *)
Fixpoint for_each (items : list value) (body : value -> script unit) : script unit :=
  match items with
  | [] => ret tt
  | m :: rest => (body m ;; for_each rest body)%script
  end.

Definition renderMatches (e : env) (payload : value) : script unit :=
  (date <- lift (display_date e payload) ;;
   let matches := resolve_matches payload in
   write clear_list ;;
   status <- lift (status_line date matches) ;;
   write (setStatus status) ;;
   if negb (truthy (get matches K.length)) then
     write (appendChild (li no_matches_text))
   else
     items <- lift (iterate matches) ;;
     for_each items (fun m =>
       line <- lift (render_line e m) ;;
       write (appendChild (li line))))%script.

(** ** The API base, lines 2-12 *)

(** The three parts of [new URL(location.href)] the script reads;
    [protocol] ends with its colon, [port] is empty for a default port. *)
Record url : Type := {
  protocol : string;
  hostname : string;
  port : string
}.

Definition local_backend : string := "http://127.0.0.1:8000".

(** [loc] is the outcome of [new URL(location.href)]: [None] when the
    constructor throws. *)
Definition API (loc : option url) : string :=
  match loc with
  | Some u =>
      if port u =? "5500" then local_backend
      else protocol u ++ "//" ++ hostname u
           ++ (if negb (port u =? "") then ":" ++ port u else "")
  | None => local_backend
  end.

(** ** Requests, lines 41-48 *)

Definition hex_digit (n : nat) : ascii :=
  ascii_of_nat (if Nat.ltb n 10 then 48 + n else 55 + n).

(** Characters [encodeURIComponent] leaves alone: letters, digits and
    [- _ . ! ~ * ' ( )]. *)
Definition unreserved (c : ascii) : bool :=
  let n := nat_of_ascii c in
  (Nat.leb 65 n && Nat.leb n 90) || (Nat.leb 97 n && Nat.leb n 122)
  || (Nat.leb 48 n && Nat.leb n 57)
  || existsb (Nat.eqb n) [45; 95; 46; 33; 126; 42; 39; 40; 41].

(** [encodeURIComponent(s)] over the UTF-8 bytes of [s]. *)
Fixpoint encodeURIComponent (s : string) : string :=
  match s with
  | EmptyString => ""
  | String c rest =>
      if unreserved c then String c (encodeURIComponent rest)
      else String "%" (String (hex_digit (nat_of_ascii c / 16))
             (String (hex_digit (nat_of_ascii c mod 16))
                (encodeURIComponent rest)))
  end.

(** [res.ok] *)
Definition ok (status : Z) : bool := (200 <=? status)%Z && (status <=? 299)%Z.

(** The message of the error thrown on line 45. *)
Definition http_error_message (status : Z) (txt url : string) : string :=
  "HTTP " ++ dec status ++ " • " ++ (if negb (txt =? "") then txt else url).

(** What the network does with one request: the promise of [fetch] settles
    with a response of some status or rejects; [res.text()] and
    [res.json()] settle likewise. *)
Record exchange : Type := {
  response : result Z;
  body_text : result string;
  body_json : result value
}.

(** [fetchJSON(url)] run to completion against an exchange. *)
Definition fetchJSON (url : string) (x : exchange) : result value :=
  match response x with
  | Throw e => Throw e
  | Ok status =>
      if negb (ok status) then
        let txt := match body_text x with Ok t => t | Throw _ => "" end in
        Throw (Thrown (http_error_message status txt url))
      else body_json x
  end.

(** The same function between its suspension points. *)
Inductive stage : Type :=
| AwaitFetch (url : string)               (* line 42 *)
| AwaitText (url : string) (status : Z)   (* line 44 *)
| AwaitJson.                              (* line 47, awaited on lines 92 and 107 *)

Inductive settlement : Type :=
| FetchSettled (r : result Z)
| TextSettled (r : result string)
| JsonSettled (r : result value).

(** One resumption: the next suspension point or the outcome of the call.
    [None]: the settlement is not of the promise awaited. *)
Definition fetchJSON_resume (st : stage) (s : settlement)
    : option (stage + result value) :=
  match st, s with
  | AwaitFetch _, FetchSettled (Throw e) => Some (inr (Throw e))
  | AwaitFetch url, FetchSettled (Ok status) =>
      if negb (ok status) then Some (inl (AwaitText url status))
      else Some (inl AwaitJson)
  | AwaitText url status, TextSettled r =>
      let txt := match r with Ok t => t | Throw _ => "" end in
      Some (inr (Throw (Thrown (http_error_message status txt url))))
  | AwaitJson, JsonSettled r => Some (inr r)
  | _, _ => None
  end.

(** ** The actions, lines 88-116 *)

(** [err.message] *)
Definition message (e : env) (err : exn) : string :=
  match err with
  | Thrown m => m
  | Rejected m => m
  | Engine ee => engine_message e ee
  end.

Definition today_url (api : string) : string := api ++ "/api/matches/today".

Definition date_url (api d : string) : string :=
  api ++ "/api/matches/date?d=" ++ encodeURIComponent d.

(** Up to the first suspension: lines 90-92, and the request made. *)
Definition fetchToday_begin (api : string) (p : page) : page * stage :=
  (setStatus "loading /api/matches/today …" (setLoading true p),
   AwaitFetch (today_url api)).

(** Lines 105-107. *)
Definition fetchDate_begin (api d : string) (p : page) : page * stage :=
  (setStatus ("loading /api/matches/date?d=" ++ d ++ " …") (setLoading true p),
   AwaitFetch (date_url api d)).

(** The catch block, lines 94-97 and 109-112. *)
Definition on_error (e : env) (err : exn) (p : page) : page :=
  clear_list (setStatus ("error: " ++ message e err) (console_error err p)).

(** From the settled [await fetchJSON(...)] to the end of the action: the
    rest of the try block, the catch block and the finally block. *)
Definition action_finish (e : env) (outcome : result value) : page -> page :=
  try_catch_finally
    (data <- lift outcome ;; renderMatches e data)%script
    (on_error e)
    (setLoading false).

(** An action run to completion against an exchange. *)
Definition fetchToday (api : string) (e : env) (x : exchange) (p : page) : page :=
  let (p', _) := fetchToday_begin api p in
  action_finish e (fetchJSON (today_url api) x) p'.

Definition fetchDate (api : string) (e : env) (d : string) (x : exchange)
    (p : page) : page :=
  let (p', _) := fetchDate_begin api d p in
  action_finish e (fetchJSON (date_url api d) x) p'.

(** ** The page's events, lines 118-124 *)

Record session : Type := {
  ui : page;
  tasks : list stage      (* actions suspended at an await *)
}.

Inductive event : Type :=
| ClickToday                            (* user activates btnToday *)
| ClickLoad                             (* user activates btnLoad *)
| Input (text : string)                 (* user edits the date field *)
| Settle (i : nat) (s : settlement).    (* the promise task [i] awaits settles *)

Definition spawn (a : session) (started : page * stage) : session :=
  {| ui := fst started; tasks := tasks a ++ [snd started] |}.

Fixpoint replace_nth {A : Type} (i : nat) (x : A) (l : list A) : list A :=
  match l, i with
  | [], _ => []
  | _ :: rest, O => x :: rest
  | y :: rest, S j => y :: replace_nth j x rest
  end.

Fixpoint remove_nth {A : Type} (i : nat) (l : list A) : list A :=
  match l, i with
  | [], _ => []
  | _ :: rest, O => rest
  | y :: rest, S j => y :: remove_nth j rest
  end.

(** The argument of [fetchDate] on line 121. *)
Definition load_argument (e : env) (p : page) : result string :=
  if negb (date_value p =? "") then Ok (date_value p) else toLocalISODate e.

(** One turn of the event loop.  A disabled button dispatches no click.  A
    click handler that throws before calling its action leaves the page as
    it was. *)
Definition step (api : string) (e : env) (ev : event) (a : session) : session :=
  match ev with
  | ClickToday =>
      if btnToday_disabled (ui a) then a
      else spawn a (fetchToday_begin api (ui a))
  | ClickLoad =>
      if btnLoad_disabled (ui a) then a
      else match load_argument e (ui a) with
           | Ok d => spawn a (fetchDate_begin api d (ui a))
           | Throw _ => a
           end
  | Input text => {| ui := set_date_value text (ui a); tasks := tasks a |}
  | Settle i s =>
      match nth_error (tasks a) i with
      | None => a
      | Some st =>
          match fetchJSON_resume st s with
          | None => a
          | Some (inl st') =>
              {| ui := ui a; tasks := replace_nth i st' (tasks a) |}
          | Some (inr outcome) =>
              {| ui := action_finish e outcome (ui a);
                 tasks := remove_nth i (tasks a) |}
          end
      end
  end.

(** Lines 119-124 on the page as loaded: default the date field, wire the
    buttons, start the first fetch.  [None]: line 119 threw and the script
    stopped there. *)
Definition startup (api : string) (e : env) (loaded : page) : option session :=
  match toLocalISODate e with
  | Ok today =>
      Some (spawn {| ui := set_date_value today loaded; tasks := [] |}
                  (fetchToday_begin api (set_date_value today loaded)))
  | Throw _ => None
  end.

(** States the page goes through, whatever the clock reads at each turn. *)
Inductive reachable (api : string) : session -> Prop :=
| reach_startup e loaded a :
    startup api e loaded = Some a -> reachable api a
| reach_step e ev a :
    reachable api a -> reachable api (step api e ev a).

(** The page after a sequence of events, all at the same clock reading. *)
Definition run (api : string) (e : env) (evs : list event) (a : session) : session :=
  fold_left (fun a ev => step api e ev a) evs a.

(** The settlements one exchange delivers to task 0, in order; the one that
    does not belong to the promise awaited is never delivered, which [step]
    renders by ignoring it. *)
Definition settlements (x : exchange) : list event :=
  [Settle 0 (FetchSettled (response x));
   Settle 0 (TextSettled (body_text x));
   Settle 0 (JsonSettled (body_json x))].

(** ** Predicates used in the statements *)

(** No object anywhere in [v] has an own [toString] property: every part
    of [v] has a string conversion. *)
Fixpoint plain (v : value) : bool :=
  match v with
  | JArr items => forallb plain items
  | JObj props =>
      negb (has_own "toString" props)
      && (fix each (l : list (string * value)) : bool :=
            match l with
            | [] => true
            | (_, x) :: rest => plain x && each rest
            end) props
  | _ => true
  end.

(** A list element the loop body can render: not null or undefined, and
    plain. *)
Definition renderable (m : value) : bool := negb (nullish m) && plain m.

(** A payload with neither a date nor a match list: null, undefined, a
    boolean, number or string, or an object whose [date] and [matches] are
    missing or null. *)
Definition bare (payload : value) : bool :=
  negb (isArray payload)
  && nullish (opt_member payload K.date)
  && nullish (opt_member payload K.matches).

(** [sub] occurs in [s]. *)
Definition contains (sub s : string) : Prop :=
  exists before after, s = before ++ sub ++ after.

Definition is_digit (c : ascii) : bool :=
  Nat.leb 48 (nat_of_ascii c) && Nat.leb (nat_of_ascii c) 57.

(** The shape YYYY-MM-DD. *)
Definition is_iso_date (s : string) : bool :=
  match s with
  | String y1 (String y2 (String y3 (String y4 (String h1
      (String m1 (String m2 (String h2 (String d1 (String d2 "")))))))))
    => forallb is_digit [y1; y2; y3; y4; m1; m2; d1; d2]
       && (h1 =? "-")%char && (h2 =? "-")%char
  | _ => false
  end.

(** Local time between 1970-01-01 and 9999-12-31. *)
Definition clock_in_range (e : env) : Prop :=
  (0 <= now e - tz_offset e (now e) * 60000 < 253402300800000)%Z.

Definition both_disabled (p : page) : Prop :=
  btnToday_disabled p = true /\ btnLoad_disabled p = true.

Definition both_enabled (p : page) : Prop :=
  btnToday_disabled p = false /\ btnLoad_disabled p = false.

(** No action in flight, both buttons usable. *)
Definition idle (a : session) : Prop := tasks a = [] /\ both_enabled (ui a).

(** One action in flight, both buttons disabled. *)
Definition busy (a : session) : Prop :=
  (exists st, tasks a = [st]) /\ both_disabled (ui a).

(** ** Induction over values *)

(** Induction with the hypothesis available for each element of an array
    and each property of an object. *)
Section ValueInduction.
Variable P : value -> Prop.
Hypothesis P_undefined : P JUndefined.
Hypothesis P_null : P JNull.
Hypothesis P_bool : forall b, P (JBool b).
Hypothesis P_num : forall n, P (JNum n).
Hypothesis P_str : forall s, P (JStr s).
Hypothesis P_arr : forall items, Forall P items -> P (JArr items).
Hypothesis P_obj : forall props, Forall (fun kv => P (snd kv)) props -> P (JObj props).

Fixpoint value_nested_ind (v : value) : P v :=
  match v with
  | JUndefined => P_undefined
  | JNull => P_null
  | JBool b => P_bool b
  | JNum n => P_num n
  | JStr s => P_str s
  | JArr items =>
      P_arr items
        ((fix all (l : list value) : Forall P l :=
            match l with
            | [] => Forall_nil P
            | x :: rest => Forall_cons x (value_nested_ind x) (all rest)
            end) items)
  | JObj props =>
      P_obj props
        ((fix all (l : list (string * value)) : Forall (fun kv => P (snd kv)) l :=
            match l with
            | [] => Forall_nil _
            | kv :: rest =>
                Forall_cons (P := fun kv => P (snd kv)) kv
                  (value_nested_ind (snd kv)) (all rest)
            end) props)
  end.
End ValueInduction.

(** ** Sample data for the concrete cases *)

(** A browser two hours east of Greenwich on 2024-05-01, whose locale
    prints a date argument between angle brackets. *)
Definition sample_env : env := {|
  now := 1714561445678;
  tz_offset := fun _ => (-120)%Z;
  locale_string := fun p =>
    match to_string p with
    | Ok s => "<" ++ s ++ ">"
    | Throw _ => "Invalid Date"
    end;
  engine_message := fun err =>
    match err with
    | ReadOfNullish k => "Cannot read properties of null (reading '" ++ K.text k ++ "')"
    | NotIterable => "matches is not iterable"
    | NoPrimitive => "Cannot convert object to primitive value"
    | InvalidTime => "Invalid time value"
    end
|}.

(** The page as served: both buttons enabled, stale text in place. *)
Definition sample_page : page := {|
  date_value := "";
  btnToday_disabled := false;
  btnLoad_disabled := false;
  status_text := "idle";
  list_items := ["stale"];
  console := []
|}.

(** Two records, the second one spelt with the alternate field names. *)
Definition two_records : list value :=
  [JObj [("league_name", JStr "Serie A"); ("home_team", JStr "Roma");
         ("away_team", JStr "Lazio"); ("home_goals", JNum 2);
         ("away_goals", JNum 1); ("date_utc", JStr "2024-05-01T18:00:00Z")];
   JObj [("league", JObj [("name", JStr "La Liga")]);
         ("teams", JObj [("home", JObj [("name", JStr "Betis")]);
                         ("away", JObj [("name", JStr "Sevilla")])]);
         ("kickoff", JNum 1714586400000)]].

(** The page just after the script has run, then a click on the disabled
    load button, the response headers and the parsed body. *)
Definition sample_started : session :=
  spawn {| ui := set_date_value "2024-05-01" sample_page; tasks := [] |}
        (fetchToday_begin local_backend (set_date_value "2024-05-01" sample_page)).

Definition sample_pending : session :=
  step local_backend sample_env (Settle 0 (FetchSettled (Ok 200%Z)))
    (step local_backend sample_env ClickLoad sample_started).

Definition sample_done : session :=
  step local_backend sample_env (Settle 0 (JsonSettled (Ok (JArr two_records))))
    sample_pending.

(** The parts of [new URL("http://localhost:5500/")] and of
    [new URL("https://example.com:9090/")]. *)
Definition localhost_5500 : url :=
  {| protocol := "http:"; hostname := "localhost"; port := "5500" |}.

Definition example_9090 : url :=
  {| protocol := "https:"; hostname := "example.com"; port := "9090" |}.

Definition http_500_boom : exchange :=
  {| response := Ok 500%Z; body_text := Ok "boom"; body_json := Throw (Rejected "unused") |}.

(** A list whose second element is null, and a payload whose [matches] is
    a number. *)
Definition broken_list : list value := [JObj []; JNull; JObj []].

Definition matches_is_number : value :=
  JObj [("date", JStr "2024-05-01"); ("matches", JNum 3)].

Definition matches_is_object : value :=
  JObj [("date", JStr "2024-05-01"); ("matches", JObj [("length", JNum 2)])].

(** ** Numbers the model prints exactly *)

(** Number.isSafeInteger: an integer up to 2^53 - 1 in magnitude, which a
    double holds exactly and [dec] prints as the engine does. *)
Definition safe_integer (n : Z) : bool := (Z.abs n <=? 9007199254740991)%Z.

(** Every number in [v] is a safe integer: [to_string] gives the engine's
    text of [v]. *)
Fixpoint exact_text (v : value) : bool :=
  match v with
  | JNum n => safe_integer n
  | JArr items => forallb exact_text items
  | JObj props =>
      (fix each (l : list (string * value)) : bool :=
         match l with
         | [] => true
         | (_, x) :: rest => exact_text x && each rest
         end) props
  | _ => true
  end.

(** The local date has a year from 0000 to 9999, the years [toISOString]
    writes on four digits. *)
Definition four_digit_year (e : env) : Prop :=
  (-62167219200000 <= now e - tz_offset e (now e) * 60000 < 253402300800000)%Z.

(** The first instant of the year 10000, at Greenwich. *)
Definition year_10000 : env := {|
  now := 253402300800000;
  tz_offset := fun _ => 0%Z;
  locale_string := fun _ => "Invalid Date";
  engine_message := fun _ => "error"
|}.

(** A payload whose date is an object with an own [toString] property. *)
Definition date_without_text : value :=
  JObj [("date", JObj [("toString", JNum 1)]); ("matches", JArr [])].

(** A payload without a date whose [matches] is null. *)
Definition no_date_no_matches : value := JObj [("matches", JNull)].

(** Records for the league chain: both names set, only the competition,
    nothing at all. *)
Definition both_league_names : value :=
  JObj [("league", JObj [("name", JStr "Serie A")]);
        ("competition", JStr "Coppa Italia");
        ("league_name", JStr "Premier League")].

Definition only_competition : value := JObj [("competition", JStr "Coppa Italia")].

(** ** Further predicates *)

(** [s] begins with [pre]. *)
Definition starts_with (pre s : string) : Prop := exists rest, s = pre ++ rest.

(** The day, counted from the epoch, that the local clock shows. *)
Definition local_day (e : env) : Z :=
  ((now e - tz_offset e (now e) * 60000) / ms_per_day)%Z.

(** What [renderMatches] leaves alone: the date field, the two buttons and
    the console. *)
Definition same_controls (p q : page) : Prop :=
  date_value q = date_value p
  /\ btnToday_disabled q = btnToday_disabled p
  /\ btnLoad_disabled q = btnLoad_disabled p
  /\ console q = console p.

(** How an action that started on page [p] and whose [fetchJSON] call ended
    in [outcome] leaves the page [shown]: either with an error, which is
    then logged once and shown, the list empty; or with the payload
    rendered, nothing logged. *)
Definition ends_as (e : env) (outcome : result value) (p shown : page) : Prop :=
  both_enabled shown
  /\ date_value shown = date_value p
  /\ ((exists err,
         (outcome = Throw err
          \/ exists data, outcome = Ok data /\ snd (renderMatches e data p) = Throw err)
         /\ status_text shown = "error: " ++ message e err
         /\ list_items shown = []
         /\ console shown = (console p ++ [err])%list)
      \/ (exists data,
            outcome = Ok data
            /\ snd (renderMatches e data p) = Ok tt
            /\ status_text shown = status_text (fst (renderMatches e data p))
            /\ list_items shown = list_items (fst (renderMatches e data p))
            /\ starts_with "date: " (status_text shown)
            /\ list_items shown <> []
            /\ console shown = console p)).

(** The page shows the outcome of a finished action: an error over an
    empty list, or a dated status over a list that is not empty. *)
Definition settled_view (p : page) : Prop :=
  (starts_with "error: " (status_text p) /\ list_items p = [])
  \/ (starts_with "date: " (status_text p) /\ list_items p <> []).

(** The page announces a request in flight. *)
Definition loading_view (p : page) : Prop :=
  starts_with "loading /api/matches/" (status_text p).

(** An event other than an edit of the date field. *)
Definition not_an_edit (ev : event) : Prop :=
  match ev with
  | Input _ => False
  | _ => True
  end.

(** Characters that would end or split a query parameter. *)
Definition delimiter (c : ascii) : bool :=
  existsb (Ascii.eqb c) ["&"; "="; "#"; "?"; "/"; " "; "+"]%char.

(** Year, month and day as [toISOString] spells them within the four-digit
    years. *)
Definition date_text (ymd : Z * Z * Z) : string :=
  let '(y, m, d) := ymd in padded 4 y ++ "-" ++ padded 2 m ++ "-" ++ padded 2 d.

(** Five minutes before midnight UTC on 2024-05-01, two hours east of
    Greenwich: locally it is already 2024-05-02. *)
Definition late_evening : env := {|
  now := 1714607700000;
  tz_offset := fun _ => (-120)%Z;
  locale_string := locale_string sample_env;
  engine_message := engine_message sample_env
|}.

(** The user types a date, then a request for today is made and answered. *)
Definition sample_session : list event :=
  [ClickToday; Settle 0 (FetchSettled (Ok 200%Z));
   Settle 0 (JsonSettled (Ok (JArr two_records)))].



(** A response that cannot be parsed. *)
Definition malformed_body : exchange :=
  {| response := Ok 200%Z; body_text := Ok "<html>";
     body_json := Throw (Rejected "Unexpected token '<'") |}.

(** A record with no usable timestamp: its [kickoff] is the number 0. *)
Definition kickoff_zero : value := JObj [("kickoff", JNum 0)].

(** * Properties *)

(** ** Values *)

Lemma lookup_absent key props :
  has_own key props = false -> lookup key props = JUndefined.
Proof.
  induction props as [|[k v] rest IH]; simpl; [reflexivity|].
  destruct (k =? key); simpl; [discriminate | exact IH].
Qed.

(** A plain value has a string conversion. *)
Lemma plain_to_string v : plain v = true -> exists s, to_string v = Ok s.
Proof.
  induction v as [| |b|n|s|items IH|props _] using value_nested_ind;
    simpl; intros Hp; try (eexists; reflexivity).
  - assert (exists ss,
      (fix each (l : list value) : result (list string) :=
         match l with
         | [] => Ok []
         | e :: rest =>
             (s <- (if nullish e then Ok "" else to_string e) ;;
              ss <- each rest ;; Ok (s :: ss))%result
         end) items = Ok ss) as [ss Hss].
    { induction IH as [|x rest Hx _ IHrest]; [eexists; reflexivity|].
      simpl in Hp. apply andb_prop in Hp as [Hpx Hprest].
      destruct (IHrest Hprest) as [ss Hss]. rewrite Hss.
      destruct (nullish x); simpl; [eexists; reflexivity|].
      destruct (Hx Hpx) as [s ->]. simpl. eexists; reflexivity. }
    rewrite Hss. simpl. eexists; reflexivity.
  - apply andb_prop in Hp as [Hown _].
    destruct (has_own "toString" props); [discriminate | eexists; reflexivity].
Qed.

Lemma plain_lookup key props : plain (JObj props) = true -> plain (lookup key props) = true.
Proof.
  simpl. intros Hp. apply andb_prop in Hp as [_ Hp].
  induction props as [|[k v] rest IH]; simpl; [reflexivity|].
  apply andb_prop in Hp as [Hv Hrest].
  destruct (k =? key); [exact Hv | exact (IH Hrest)].
Qed.

Lemma plain_get v k : plain v = true -> plain (get v k) = true.
Proof.
  destruct v; try reflexivity.
  - destruct k; reflexivity.
  - destruct k; reflexivity.
  - intros Hp. apply plain_lookup, Hp.
Qed.

Lemma plain_opt_member v k : plain v = true -> plain (opt_member v k) = true.
Proof.
  intros Hp. unfold opt_member. destruct (nullish v); [reflexivity | apply plain_get, Hp].
Qed.

Lemma plain_or_else a b : plain a = true -> plain b = true -> plain (a '||' b) = true.
Proof. intros Ha Hb. unfold or_else. destruct (truthy a); assumption. Qed.

Create HintDb plain.
#[local] Hint Resolve plain_get plain_opt_member plain_or_else : plain.

Lemma plain_league m : plain m = true -> plain (league_of m) = true.
Proof. intros Hp. unfold league_of. auto 10 with plain. Qed.

Lemma plain_home m : plain m = true -> plain (home_of m) = true.
Proof. intros Hp. unfold home_of. auto 10 with plain. Qed.

Lemma plain_away m : plain m = true -> plain (away_of m) = true.
Proof. intros Hp. unfold away_of. auto 10 with plain. Qed.

Lemma plain_when e m : plain m = true -> plain (when_arg e m) = true.
Proof. intros Hp. unfold when_arg. auto 10 with plain. Qed.

Lemma plain_to_primitive v : plain v = true -> exists p, to_primitive v = Ok p.
Proof.
  intros Hp. destruct v; try (eexists; reflexivity);
    unfold to_primitive; destruct (plain_to_string _ Hp) as [s ->];
    eexists; reflexivity.
Qed.

Lemma plain_score m : plain m = true -> exists s, score_of m = Ok s.
Proof.
  intros Hp. unfold score_of.
  destruct (nullish (get m K.home_goals) || nullish (get m K.away_goals));
    [eexists; reflexivity|].
  destruct (plain_to_string _ (plain_get m K.home_goals Hp)) as [h ->].
  destruct (plain_to_string _ (plain_get m K.away_goals Hp)) as [a ->].
  eexists; reflexivity.
Qed.

(** The loop body renders every element that is not null or undefined and
    is plain. *)
Lemma renderable_line e m : renderable m = true -> exists line, render_line e m = Ok line.
Proof.
  unfold renderable. intros H. apply andb_prop in H as [Hnn Hp].
  unfold render_line, member.
  destruct (nullish m); [discriminate|]. simpl.
  destruct (plain_to_primitive _ (plain_when e m Hp)) as [p ->]. simpl.
  destruct (plain_score m Hp) as [s ->]. simpl.
  destruct (plain_to_string _ (plain_league m Hp)) as [l ->]. simpl.
  destruct (plain_to_string _ (plain_home m Hp)) as [h ->]. simpl.
  destruct (plain_to_string _ (plain_away m Hp)) as [a ->]. simpl.
  eexists; reflexivity.
Qed.

Lemma append_assoc (a b c : string) : (a ++ b) ++ c = a ++ (b ++ c).
Proof. induction a as [|x a IH]; simpl; [reflexivity | rewrite IH; reflexivity]. Qed.

Lemma append_empty_r (a : string) : a ++ "" = a.
Proof. induction a as [|x a IH]; simpl; [reflexivity | rewrite IH; reflexivity]. Qed.

Lemma rbind_ok {A B : Type} (r : result A) (f : A -> result B) (b : B) :
  rbind r f = Ok b -> exists a, r = Ok a /\ f a = Ok b.
Proof. destruct r as [a|err]; simpl; [eauto | discriminate]. Qed.

(** A rendered item is the bracketed league, the home team, the score, the
    away team and the local time, each the conversion of what the fallback
    chains selected. *)
Lemma render_line_shape e m line :
  render_line e m = Ok line ->
  exists p league home score away,
    to_primitive (when_arg e m) = Ok p
    /\ to_string (league_of m) = Ok league
    /\ to_string (home_of m) = Ok home
    /\ score_of m = Ok score
    /\ to_string (away_of m) = Ok away
    /\ line = "[" ++ league ++ "] " ++ home ++ " " ++ score ++ " " ++ away
              ++ " — " ++ locale_string e p.
Proof.
  unfold render_line. intros H.
  apply rbind_ok in H as (_ & _ & H).
  apply rbind_ok in H as (p & Hp & H).
  apply rbind_ok in H as (score & Hs & H).
  apply rbind_ok in H as (league & Hl & H).
  apply rbind_ok in H as (home & Hh & H).
  apply rbind_ok in H as (away & Ha & H).
  injection H as <-.
  exists p, league, home, score, away. repeat split; assumption.
Qed.

(** ** Score *)




(** ** League name *)

(** A chain [a || b || c || d] yields its first truthy operand, the last
    one when none is. *)
Lemma or_else_chain (a b c d : value) :
  (truthy a = true -> a '||' b '||' c '||' d = a)
  /\ (truthy a = false -> truthy b = true -> a '||' b '||' c '||' d = b)
  /\ (truthy a = false -> truthy b = false -> truthy c = true ->
      a '||' b '||' c '||' d = c)
  /\ (truthy a = false -> truthy b = false -> truthy c = false ->
      a '||' b '||' c '||' d = d).
Proof.
  unfold or_else. repeat split.
  - intros Ha. rewrite Ha, Ha, Ha. reflexivity.
  - intros Ha Hb. rewrite Ha, Hb, Hb. reflexivity.
  - intros Ha Hb Hc. rewrite Ha, Hb, Hc. reflexivity.
  - intros Ha Hb Hc. rewrite Ha, Hb, Hc. reflexivity.
Qed.

Lemma truthy_nonempty (s : string) : s <> "" -> truthy (JStr s) = true.
Proof. intros Hs. simpl. destruct (String.eqb_spec s ""); [contradiction | reflexivity]. Qed.

(** The item of a record that renders opens with its league in brackets. *)
Lemma render_line_opens_with_league e m :
  plain m = true -> nullish m = false ->
  exists league rest,
    to_string (league_of m) = Ok league
    /\ render_line e m = Ok ("[" ++ league ++ "] " ++ rest).
Proof.
  intros Hp Hn.
  assert (Hr : renderable m = true) by (unfold renderable; rewrite Hn, Hp; reflexivity).
  destruct (renderable_line e m Hr) as [line Hline].
  pose proof Hline as Hshape.
  apply render_line_shape in Hshape
    as (p & league & home & score & away & _ & Hl & _ & _ & _ & ->).
  exists league, (home ++ " " ++ score ++ " " ++ away ++ " — " ++ locale_string e p).
  split; [exact Hl | exact Hline].
Qed.

(** C6. The league shown in a rendered item follows the chain
    [league_name], [league.name], [competition], "—".  A field is set when
    it holds a truthy value (for a name: a non-empty string).  When
    [league_name] is set it wins, also over a set [league.name]; when
    neither is set, [competition] wins; when none of the three is set, "—"
    is shown.  The winner is the text between the brackets that open the
    item. *)
Theorem league_fallback_order :
  (forall fields : list (string * value),
     let m := JObj fields in
     let league_name := get m K.league_name in
     let nested := opt_member (get m K.league) K.name in
     let competition := get m K.competition in
     (truthy league_name = true -> league_of m = league_name)
     /\ (truthy league_name = false -> truthy nested = true ->
         league_of m = nested)
     /\ (truthy league_name = false -> truthy nested = false ->
         truthy competition = true -> league_of m = competition)
     /\ (truthy league_name = false -> truthy nested = false ->
         truthy competition = false -> league_of m = JStr "—")
     /\ (forall (e : env) (a b : string),
           a <> "" -> b <> "" -> league_name = JStr a -> nested = JStr b ->
           plain m = true ->
           exists rest, render_line e m = Ok ("[" ++ a ++ "] " ++ rest))
     /\ (forall (e : env) (c : string),
           c <> "" ->
           has_own "league_name" fields = false ->
           has_own "league" fields = false ->
           competition = JStr c ->
           plain m = true ->
           exists rest, render_line e m = Ok ("[" ++ c ++ "] " ++ rest))
     /\ (forall e : env,
           has_own "league_name" fields = false ->
           has_own "league" fields = false ->
           has_own "competition" fields = false ->
           plain m = true ->
           exists rest, render_line e m = Ok ("[" ++ "—" ++ "] " ++ rest))
     /\ (forall (e : env) (line : string),
           exact_text m = true ->
           render_line e m = Ok line ->
           exists league rest,
             to_string (league_of m) = Ok league
             /\ line = "[" ++ league ++ "] " ++ rest))
  /\ league_of both_league_names = JStr "Premier League"
  /\ league_of only_competition = JStr "Coppa Italia"
  /\ league_of (JObj []) = JStr "—"
  /\ render_line sample_env both_league_names
     = Ok "[Premier League] Home vs Away — <1714561445678>"
  /\ render_line sample_env only_competition
     = Ok "[Coppa Italia] Home vs Away — <1714561445678>"
  /\ render_line sample_env (JObj []) = Ok "[—] Home vs Away — <1714561445678>".
Proof.
  split; [|repeat split; reflexivity].
  intros fields m league_name nested competition.
  destruct (or_else_chain league_name nested competition (JStr "—"))
    as (H1 & H2 & H3 & H4).
  change (league_name '||' nested '||' competition '||' JStr "—")
    with (league_of m) in H1, H2, H3, H4.
  assert (Habsent : has_own "league" fields = false -> nested = JUndefined).
  { intros H. unfold nested, m, get; simpl K.text.
    rewrite (lookup_absent _ _ H). reflexivity. }
  assert (Hopens : forall e v text,
            league_of m = v -> to_string v = Ok text -> plain m = true ->
            exists rest, render_line e m = Ok ("[" ++ text ++ "] " ++ rest)).
  { intros e v text Hv Htext Hp.
    destruct (render_line_opens_with_league e m Hp eq_refl) as (league & rest & Hl & Hline).
    rewrite Hv, Htext in Hl. injection Hl as <-. exists rest. exact Hline. }
  repeat split; try assumption.
  - intros e a b Ha _ Hln _ Hp. apply (Hopens e (JStr a) a); [|reflexivity|exact Hp].
    rewrite H1; [exact Hln|]. rewrite Hln. apply truthy_nonempty, Ha.
  - intros e c Hc Hn Hl Hcomp Hp. apply (Hopens e (JStr c) c); [|reflexivity|exact Hp].
    rewrite H3.
    + exact Hcomp.
    + unfold league_name, m, get; simpl K.text.
      rewrite (lookup_absent _ _ Hn). reflexivity.
    + rewrite (Habsent Hl). reflexivity.
    + rewrite Hcomp. apply truthy_nonempty, Hc.
  - intros e Hn Hl Hc Hp. apply (Hopens e (JStr "—") "—"); [|reflexivity|exact Hp].
    rewrite H4.
    + reflexivity.
    + unfold league_name, m, get; simpl K.text.
      rewrite (lookup_absent _ _ Hn). reflexivity.
    + rewrite (Habsent Hl). reflexivity.
    + unfold competition, m, get; simpl K.text.
      rewrite (lookup_absent _ _ Hc). reflexivity.
  - intros e line _ Hline.
    apply render_line_shape in Hline
      as (p & league & home & score & away & _ & Hl & _ & _ & _ & ->).
    exists league, (home ++ " " ++ score ++ " " ++ away ++ " — " ++ locale_string e p).
    split; [exact Hl | reflexivity].
Qed.

(** ** API base *)

(** C4. A page on port 5500 talks to http://127.0.0.1:8000; any other page
    talks to its own scheme, host name and port, the port segment left out
    when the port is empty; a page URL that does not parse falls back to
    http://127.0.0.1:8000.  http://localhost:5500/ resolves to
    http://127.0.0.1:8000 and https://example.com:9090/ to
    https://example.com:9090. *)
Theorem API_base_resolution :
  (forall u : url, port u = "5500" -> API (Some u) = "http://127.0.0.1:8000")
  /\ (forall u : url,
        port u <> "5500" -> port u <> "" ->
        API (Some u) = protocol u ++ "//" ++ hostname u ++ ":" ++ port u)
  /\ (forall u : url,
        port u = "" -> API (Some u) = protocol u ++ "//" ++ hostname u)
  /\ API None = "http://127.0.0.1:8000"
  /\ API (Some localhost_5500) = "http://127.0.0.1:8000"
  /\ API (Some example_9090) = "https://example.com:9090".
Proof.
  repeat split.
  - intros u H. unfold API. rewrite H. reflexivity.
  - intros u H5500 Hport. unfold API.
    destruct (String.eqb_spec (port u) "5500"); [contradiction|].
    destruct (String.eqb_spec (port u) ""); [contradiction|]. reflexivity.
  - intros u H. unfold API. rewrite H. simpl. rewrite append_empty_r. reflexivity.
Qed.

(** ** Calendar arithmetic *)

Lemma digit_is_digit (n : Z) : is_digit (digit (n mod 10)) = true.
Proof.
  pose proof (Z.mod_pos_bound n 10 ltac:(lia)) as Hk.
  remember (n mod 10)%Z as k eqn:Ek. clear Ek.
  assert (k = 0 \/ k = 1 \/ k = 2 \/ k = 3 \/ k = 4 \/ k = 5 \/ k = 6
          \/ k = 7 \/ k = 8 \/ k = 9)%Z as Hcases by lia.
  repeat (destruct Hcases as [->|Hcases]; [reflexivity|]). subst k. reflexivity.
Qed.

Lemma is_digit_unreserved (c : ascii) : is_digit c = true -> unreserved c = true.
Proof.
  unfold is_digit, unreserved. intros H. rewrite H.
  rewrite orb_true_r. reflexivity.
Qed.

(** Days 0 to 2932896 from the epoch lie in the years 1970 to 9999. *)
Lemma civil_year_range (days : Z) :
  (0 <= days < 2932897)%Z ->
  (0 <= fst (fst (civil_from_days days)) <= 9999)%Z.
Proof.
  intros Hd. cbv beta iota zeta delta [civil_from_days fst].
  set (z := (days + 719468)%Z).
  assert (Hz : (719468 <= z < 3652365)%Z) by (subst z; lia).
  clearbody z. clear Hd days.
  set (era := (z / 146097)%Z).
  set (doe := (z - era * 146097)%Z).
  set (yoe := ((doe - doe / 1460 + doe / 36524 - doe / 146096) / 365)%Z).
  set (doy := (doe - (365 * yoe + yoe / 4 - yoe / 100))%Z).
  set (mp := ((5 * doy + 2) / 153)%Z).
  destruct (Z.ltb_spec mp 10) as [Hmp|Hmp].
  - destruct (Z.leb_spec (mp + 3) 2) as [Hm|Hm];
      subst mp doy yoe doe era; Z.div_mod_to_equations; lia.
  - destruct (Z.leb_spec (mp - 9) 2) as [Hm|Hm];
      subst mp doy yoe doe era; Z.div_mod_to_equations; lia.
Qed.

Lemma padded_2 n : padded 2 n = String (digit (n / 10 mod 10)) (String (digit (n mod 10)) "").
Proof. reflexivity. Qed.

Lemma padded_4 n :
  padded 4 n
  = String (digit (n / 10 / 10 / 10 mod 10)) (String (digit (n / 10 / 10 mod 10))
      (String (digit (n / 10 mod 10)) (String (digit (n mod 10)) ""))).
Proof. reflexivity. Qed.

(** Within the four-digit years [toISOString] starts with YYYY-MM-DD. *)
Lemma toISOString_date_part (t : Z) :
  (0 <= t < 253402300800000)%Z ->
  exists s, toISOString t = Ok s /\ is_iso_date (substring 0 10 s) = true.
Proof.
  intros Ht. unfold toISOString.
  assert (Hclip : (Z.abs t <=? max_time)%Z = true).
  { apply Z.leb_le. unfold max_time. lia. }
  rewrite Hclip.
  assert (Hdays : (0 <= t / ms_per_day < 2932897)%Z).
  { unfold ms_per_day. Z.div_mod_to_equations. lia. }
  pose proof (civil_year_range _ Hdays) as Hy.
  destruct (civil_from_days (t / ms_per_day)) as [[y m] d]. simpl fst in Hy.
  eexists. split; [reflexivity|].
  unfold year_text.
  assert (Hfour : ((0 <=? y)%Z && (y <=? 9999)%Z) = true).
  { apply andb_true_intro. split; apply Z.leb_le; lia. }
  rewrite Hfour, padded_4, !padded_2.
  cbn [append substring is_iso_date forallb].
  rewrite !digit_is_digit. reflexivity.
Qed.

Lemma encode_iso_date (s : string) :
  is_iso_date s = true -> encodeURIComponent s = s.
Proof.
  destruct s as [|y1 [|y2 [|y3 [|y4 [|h1 [|m1 [|m2 [|h2 [|d1 [|d2 [|]]]]]]]]]]];
    try discriminate.
  cbn [is_iso_date forallb]. intros H.
  apply andb_prop in H as [H Hh2]. apply andb_prop in H as [H Hh1].
  apply andb_prop in H as [Hy1 H]. apply andb_prop in H as [Hy2 H].
  apply andb_prop in H as [Hy3 H]. apply andb_prop in H as [Hy4 H].
  apply andb_prop in H as [Hm1 H]. apply andb_prop in H as [Hm2 H].
  apply andb_prop in H as [Hd1 H]. apply andb_prop in H as [Hd2 _].
  apply Ascii.eqb_eq in Hh1, Hh2. subst h1 h2.
  apply is_digit_unreserved in Hy1, Hy2, Hy3, Hy4, Hm1, Hm2, Hd1, Hd2.
  cbn [encodeURIComponent].
  rewrite Hy1, Hy2, Hy3, Hy4, Hm1, Hm2, Hd1, Hd2. reflexivity.
Qed.

Lemma toLocalISODate_in_range (e : env) :
  clock_in_range e ->
  exists today, toLocalISODate e = Ok today /\ is_iso_date today = true.
Proof.
  unfold clock_in_range, toLocalISODate, toLocalISODate_of. intros Hr.
  destruct (toISOString_date_part _ Hr) as (s & Hs & Hshape).
  rewrite Hs. exists (substring 0 10 s). split; [reflexivity | exact Hshape].
Qed.

(** Days -719528 to 2932896 from the epoch lie in the years 0 to 9999. *)
Lemma civil_year_four_digits (days : Z) :
  (-719528 <= days < 2932897)%Z ->
  (0 <= fst (fst (civil_from_days days)) <= 9999)%Z.
Proof.
  intros Hd. cbv beta iota zeta delta [civil_from_days fst].
  set (z := (days + 719468)%Z).
  assert (Hz : (-60 <= z < 3652365)%Z) by (subst z; lia).
  clearbody z. clear Hd days.
  set (era := (z / 146097)%Z).
  set (doe := (z - era * 146097)%Z).
  set (yoe := ((doe - doe / 1460 + doe / 36524 - doe / 146096) / 365)%Z).
  set (doy := (doe - (365 * yoe + yoe / 4 - yoe / 100))%Z).
  set (mp := ((5 * doy + 2) / 153)%Z).
  destruct (Z.ltb_spec mp 10) as [Hmp|Hmp].
  - destruct (Z.leb_spec (mp + 3) 2) as [Hm|Hm];
      subst mp doy yoe doe era; Z.div_mod_to_equations; lia.
  - destruct (Z.leb_spec (mp - 9) 2) as [Hm|Hm];
      subst mp doy yoe doe era; Z.div_mod_to_equations; lia.
Qed.

Lemma civil_month_day_range (days : Z) :
  (1 <= snd (fst (civil_from_days days)) <= 12)%Z
  /\ (1 <= snd (civil_from_days days) <= 31)%Z.
Proof.
  cbv beta iota zeta delta [civil_from_days fst snd].
  set (z := (days + 719468)%Z).
  set (era := (z / 146097)%Z).
  set (doe := (z - era * 146097)%Z).
  set (yoe := ((doe - doe / 1460 + doe / 36524 - doe / 146096) / 365)%Z).
  set (doy := (doe - (365 * yoe + yoe / 4 - yoe / 100))%Z).
  set (mp := ((5 * doy + 2) / 153)%Z).
  assert (Hdoe : (0 <= doe <= 146096)%Z) by (subst doe era; Z.div_mod_to_equations; lia).
  clearbody doe. clear era z.
  assert (Hyoe : (0 <= yoe <= 399)%Z) by (subst yoe; Z.div_mod_to_equations; lia).
  assert (Hdoy : (0 <= doy <= 365)%Z) by (subst doy yoe; Z.div_mod_to_equations; lia).
  clearbody doy.
  assert (Hmp : (0 <= mp <= 11)%Z) by (subst mp; Z.div_mod_to_equations; lia).
  destruct (Z.ltb_spec mp 10); split; try lia; subst mp; Z.div_mod_to_equations; lia.
Qed.

Lemma date_text_is_iso_date (ymd : Z * Z * Z) : is_iso_date (date_text ymd) = true.
Proof.
  destruct ymd as [[y m] d]. unfold date_text.
  rewrite padded_4, !padded_2.
  cbn [append is_iso_date forallb].
  rewrite !digit_is_digit. reflexivity.
Qed.

(** In the years 0 to 9999 the local date is the civil date of the local
    day. *)
Lemma toLocalISODate_four_digit_year (e : env) :
  four_digit_year e ->
  toLocalISODate e = Ok (date_text (civil_from_days (local_day e))).
Proof.
  unfold four_digit_year, toLocalISODate, toLocalISODate_of, local_day.
  set (t := (now e - tz_offset e (now e) * 60000)%Z). intros Ht.
  unfold toISOString.
  assert (Hclip : (Z.abs t <=? max_time)%Z = true).
  { apply Z.leb_le. unfold max_time. lia. }
  rewrite Hclip.
  assert (Hdays : (-719528 <= t / ms_per_day < 2932897)%Z).
  { unfold ms_per_day. Z.div_mod_to_equations. lia. }
  pose proof (civil_year_four_digits _ Hdays) as Hy.
  destruct (civil_from_days (t / ms_per_day)) as [[y m] d]. simpl fst in Hy.
  unfold year_text, date_text.
  assert (Hfour : ((0 <=? y)%Z && (y <=? 9999)%Z) = true).
  { apply andb_true_intro. split; apply Z.leb_le; lia. }
  rewrite Hfour, padded_4, !padded_2.
  cbn [rbind append substring]. reflexivity.
Qed.

(** Whatever the clock shows, a local date that is returned is not the
    empty string. *)
Lemma toLocalISODate_not_empty (e : env) (arg : string) :
  toLocalISODate e = Ok arg -> arg <> "".
Proof.
  unfold toLocalISODate, toLocalISODate_of, toISOString.
  destruct (Z.abs (now e - tz_offset e (now e) * 60000) <=? max_time)%Z;
    [|discriminate].
  destruct (civil_from_days ((now e - tz_offset e (now e) * 60000) / ms_per_day))
    as [[y m] d].
  unfold year_text.
  destruct ((0 <=? y)%Z && (y <=? 9999)%Z).
  - rewrite padded_4. cbn [rbind append substring].
    intros H. injection H as <-. discriminate.
  - destruct (y <? 0)%Z; cbn [rbind append substring];
      intros H; injection H as <-; discriminate.
Qed.

(** ** Rendering a payload *)

Lemma set_list_twice items items' p : set_list items (set_list items' p) = set_list items p.
Proof. reflexivity. Qed.

Lemma page_eta p : set_list (list_items p) p = p.
Proof. destruct p; reflexivity. Qed.

(** The loop appends one item per element, in order, when every element
    renders. *)
Lemma for_each_lines e items lines :
  Forall2 (fun m line => render_line e m = Ok line) items lines ->
  forall p,
    for_each items
      (fun m => (line <- lift (render_line e m) ;; write (appendChild (li line)))%script) p
    = (set_list (list_items p ++ lines) p, Ok tt).
Proof.
  induction 1 as [|m line items lines Hm _ IH]; intros p; simpl.
  - unfold ret. rewrite app_nil_r, page_eta. reflexivity.
  - unfold bind at 1. unfold bind at 1. unfold lift. rewrite Hm.
    unfold write at 1. rewrite IH.
    unfold appendChild, li. rewrite set_list_twice. simpl list_items.
    rewrite <- app_assoc. reflexivity.
Qed.

(** The first element that does not render stops the loop with its error,
    after the items of the elements before it. *)
Lemma for_each_stops e items lines m err rest :
  Forall2 (fun m line => render_line e m = Ok line) items lines ->
  render_line e m = Throw err ->
  forall p,
    for_each (items ++ m :: rest)
      (fun m => (line <- lift (render_line e m) ;; write (appendChild (li line)))%script) p
    = (set_list (list_items p ++ lines) p, Throw err).
Proof.
  intros Hitems Hm. induction Hitems as [|x line items lines Hx _ IH]; intros p; simpl.
  - unfold bind at 1. unfold bind at 1. unfold lift. rewrite Hm.
    rewrite app_nil_r, page_eta. reflexivity.
  - unfold bind at 1. unfold bind at 1. unfold lift. rewrite Hx.
    unfold write at 1. rewrite IH.
    unfold appendChild, li. rewrite set_list_twice. simpl list_items.
    rewrite <- app_assoc. reflexivity.
Qed.

Lemma renderable_lines e items :
  forallb renderable items = true ->
  exists lines, Forall2 (fun m line => render_line e m = Ok line) items lines.
Proof.
  induction items as [|m items IH]; simpl; intros H.
  - exists []. constructor.
  - apply andb_prop in H as [Hm Hitems].
    destruct (renderable_line e m Hm) as [line Hline].
    destruct (IH Hitems) as [lines Hlines].
    exists (line :: lines). constructor; assumption.
Qed.

(** The empty case: status line with the count, then the single entry. *)
Lemma renderMatches_no_matches e payload p dv d n :
  display_date e payload = Ok dv ->
  to_string dv = Ok d ->
  to_string (get (resolve_matches payload) K.length) = Ok n ->
  truthy (get (resolve_matches payload) K.length) = false ->
  renderMatches e payload p
  = (set_list [no_matches_text] (setStatus ("date: " ++ d ++ " • matches: " ++ n) p),
     Ok tt).
Proof.
  intros Hdate Hd Hn Hlen.
  unfold renderMatches, bind, lift, write, status_line.
  rewrite Hdate, Hd, Hn, Hlen. reflexivity.
Qed.

(** A non-empty array whose elements all render. *)
Lemma renderMatches_lines e payload p dv d items lines :
  display_date e payload = Ok dv ->
  to_string dv = Ok d ->
  resolve_matches payload = JArr items ->
  items <> [] ->
  Forall2 (fun m line => render_line e m = Ok line) items lines ->
  renderMatches e payload p
  = (set_list lines
       (setStatus ("date: " ++ d ++ " • matches: " ++ dec (Z.of_nat (List.length items))) p),
     Ok tt).
Proof.
  intros Hdate Hd Hres Hne Hlines.
  unfold renderMatches, status_line.
  rewrite Hres. simpl get. simpl to_string.
  assert (truthy (JNum (Z.of_nat (List.length items))) = true) as Hlen.
  { destruct items; [contradiction | reflexivity]. }
  unfold bind at 1. unfold lift at 1. rewrite Hdate.
  unfold bind at 1. unfold write at 1.
  unfold bind at 1. unfold lift at 1. rewrite Hd. simpl rbind.
  unfold bind at 1. unfold write at 1.
  rewrite Hlen. simpl negb. cbv iota.
  unfold bind at 1. unfold lift at 1. simpl iterate.
  rewrite (for_each_lines e items lines Hlines). reflexivity.
Qed.

Lemma display_date_plain e payload today :
  toLocalISODate e = Ok today ->
  plain payload = true ->
  exists dv d, display_date e payload = Ok dv /\ to_string dv = Ok d
               /\ (nullish (opt_member payload K.date) = true -> d = today).
Proof.
  intros Htoday Hp. unfold display_date.
  destruct (nullish (opt_member payload K.date)) eqn:Hn.
  - rewrite Htoday. simpl. exists (JStr today), today. repeat split; reflexivity.
  - destruct (plain_to_string _ (plain_opt_member payload K.date Hp)) as [d Hd].
    exists (opt_member payload K.date), d. repeat split; [exact Hd | discriminate].
Qed.

Lemma plain_resolve_matches payload :
  plain payload = true -> plain (resolve_matches payload) = true.
Proof.
  intros Hp. unfold resolve_matches, coalesce.
  destruct (isArray payload); [exact Hp|].
  destruct (nullish (opt_member payload K.matches)); [reflexivity|].
  apply plain_opt_member, Hp.
Qed.

Lemma forallb_renderable items :
  forallb plain items = true ->
  forallb (fun m => negb (nullish m)) items = true ->
  forallb renderable items = true.
Proof.
  induction items as [|m items IH]; simpl; [reflexivity|].
  intros Hp Hn. apply andb_prop in Hp as [Hp1 Hp2]. apply andb_prop in Hn as [Hn1 Hn2].
  unfold renderable at 1. rewrite Hp1, Hn1, (IH Hp2 Hn2). reflexivity.
Qed.

(** C5, amended.  For the payload [{date: "2024-05-01", matches: []}] the
    status reads exactly "date: 2024-05-01 • matches: 0" and the list holds
    exactly one entry, "No matches for this date.", whatever was shown
    before.  In general a payload whose match list resolves to the empty
    list gets the status "date: <d> • matches: 0" and that single entry when
    its date has a text <d>: the date string itself, today's local date
    when the payload has no date (in the years 0 to 9999 the civil date of
    the local day), and for any other date its text, provided the date
    holds no object with an own [toString] property and no number beyond
    the safe integers. *)
Theorem empty_list_shows_one_entry :
  (forall (e : env) (p : page),
     renderMatches e (JObj [("date", JStr "2024-05-01"); ("matches", JArr [])]) p
     = (set_list ["No matches for this date."]
          (setStatus "date: 2024-05-01 • matches: 0" p),
        Ok tt))
  /\ (forall (e : env) (p : page),
        let shown :=
          fst (renderMatches e (JObj [("date", JStr "2024-05-01"); ("matches", JArr [])]) p) in
        status_text shown = "date: 2024-05-01 • matches: 0"
        /\ list_items shown = ["No matches for this date."])
  /\ (forall (e : env) (payload : value) (p : page) (d : string),
        resolve_matches payload = JArr [] ->
        opt_member payload K.date = JStr d ->
        renderMatches e payload p
        = (set_list ["No matches for this date."]
             (setStatus ("date: " ++ d ++ " • matches: 0") p),
           Ok tt))
  /\ (forall (e : env) (payload : value) (p : page) (today : string),
        resolve_matches payload = JArr [] ->
        nullish (opt_member payload K.date) = true ->
        toLocalISODate e = Ok today ->
        renderMatches e payload p
        = (set_list ["No matches for this date."]
             (setStatus ("date: " ++ today ++ " • matches: 0") p),
           Ok tt))
  /\ (forall (e : env) (payload : value) (p : page),
        resolve_matches payload = JArr [] ->
        nullish (opt_member payload K.date) = true ->
        four_digit_year e ->
        renderMatches e payload p
        = (set_list ["No matches for this date."]
             (setStatus ("date: " ++ date_text (civil_from_days (local_day e))
                         ++ " • matches: 0") p),
           Ok tt))
  /\ (forall (e : env) (payload : value) (p : page),
        resolve_matches payload = JArr [] ->
        nullish (opt_member payload K.date) = false ->
        plain (opt_member payload K.date) = true ->
        exact_text (opt_member payload K.date) = true ->
        exists d : string,
          to_string (opt_member payload K.date) = Ok d
          /\ renderMatches e payload p
             = (set_list ["No matches for this date."]
                  (setStatus ("date: " ++ d ++ " • matches: 0") p),
                Ok tt)).
Proof.
  assert (Hgeneral : forall e payload p dv d,
            resolve_matches payload = JArr [] ->
            display_date e payload = Ok dv ->
            to_string dv = Ok d ->
            renderMatches e payload p
            = (set_list ["No matches for this date."]
                 (setStatus ("date: " ++ d ++ " • matches: 0") p),
               Ok tt)).
  { intros e payload p dv d Hres Hdate Hd.
    apply (renderMatches_no_matches e payload p dv d "0"); try assumption;
      rewrite Hres; reflexivity. }
  assert (Habsent : forall e payload p today,
            resolve_matches payload = JArr [] ->
            nullish (opt_member payload K.date) = true ->
            toLocalISODate e = Ok today ->
            renderMatches e payload p
            = (set_list ["No matches for this date."]
                 (setStatus ("date: " ++ today ++ " • matches: 0") p),
               Ok tt)).
  { intros e payload p today Hres Hdate Htoday.
    apply (Hgeneral e payload p (JStr today) today Hres); [|reflexivity].
    unfold display_date. rewrite Hdate, Htoday. reflexivity. }
  split; [reflexivity|]. split; [split; reflexivity|].
  split; [|split; [exact Habsent|split]].
  - intros e payload p d Hres Hdate.
    apply (Hgeneral e payload p (JStr d) d Hres); [|reflexivity].
    unfold display_date. rewrite Hdate. reflexivity.
  - intros e payload p Hres Hdate Hclock.
    apply (Habsent e payload p _ Hres Hdate).
    apply toLocalISODate_four_digit_year, Hclock.
  - intros e payload p Hres Hdate Hplain _.
    destruct (plain_to_string _ Hplain) as [d Hd].
    exists d. split; [exact Hd|].
    apply (Hgeneral e payload p (opt_member payload K.date) d Hres); [|exact Hd].
    unfold display_date. rewrite Hdate. reflexivity.
Qed.

(** The statement at a payload without a date whose [matches] is null, on
    2024-05-01. *)
Lemma empty_list_shows_one_entry_witness :
  renderMatches sample_env no_date_no_matches sample_page
  = (set_list ["No matches for this date."]
       (setStatus ("date: " ++ "2024-05-01" ++ " • matches: 0") sample_page),
     Ok tt).
Proof.
  apply (proj1 (proj2 (proj2 (proj2 empty_list_shows_one_entry)))
           sample_env no_date_no_matches sample_page "2024-05-01"); reflexivity.
Defined.

(** C5 over every payload with an empty match list fails: a date that is an
    object with an own [toString] property has no text, the template of
    line 57 throws after line 56 cleared the list, and neither the status
    nor the entry is written. *)
Lemma date_without_text_shows_no_entry :
  let r := renderMatches sample_env date_without_text sample_page in
  resolve_matches date_without_text = JArr []
  /\ snd r = Throw (Engine NoPrimitive)
  /\ list_items (fst r) = []
  /\ status_text (fst r) = status_text sample_page.
Proof. repeat split. Qed.

(** C1, amended.  The match list is the payload itself when it is an
    array, else its [matches] field, else the empty list.  When that list is
    a non-empty array without null or undefined elements, in a payload that
    is plain (no object in it has an own [toString] property), one item is
    rendered per element, in the order of the list: the i-th item is the
    rendering of the i-th element, nothing sorted, dropped or merged, and
    the status line counts them.  For a bare array the date shown is
    today's local date. *)
Theorem rendered_lines_follow_list :
  (forall items : list value, resolve_matches (JArr items) = JArr items)
  /\ (forall payload : value,
        isArray payload = false ->
        nullish (opt_member payload K.matches) = false ->
        resolve_matches payload = opt_member payload K.matches)
  /\ (forall payload : value,
        isArray payload = false ->
        nullish (opt_member payload K.matches) = true ->
        resolve_matches payload = JArr [])
  /\ (forall (e : env) (today : string) (payload : value) (items : list value) (p : page),
        toLocalISODate e = Ok today ->
        resolve_matches payload = JArr items ->
        items <> [] ->
        forallb (fun m => negb (nullish m)) items = true ->
        plain payload = true ->
        exists (d : string) (lines : list string),
          renderMatches e payload p
          = (set_list lines
               (setStatus ("date: " ++ d ++ " • matches: "
                           ++ dec (Z.of_nat (List.length items))) p),
             Ok tt)
          /\ List.length lines = List.length items
          /\ Forall2 (fun m line => render_line e m = Ok line) items lines
          /\ (payload = JArr items -> d = today)).
Proof.
  repeat split.
  - intros payload Harr Hn. unfold resolve_matches, coalesce. rewrite Harr, Hn. reflexivity.
  - intros payload Harr Hn. unfold resolve_matches, coalesce. rewrite Harr, Hn. reflexivity.
  - intros e today payload items p Htoday Hres Hne Hnn Hp.
    destruct (display_date_plain e payload today Htoday Hp) as (dv & d & Hdate & Hd & Hfall).
    assert (Hitems : forallb plain items = true).
    { pose proof (plain_resolve_matches payload Hp) as H. rewrite Hres in H. exact H. }
    destruct (renderable_lines e items (forallb_renderable items Hitems Hnn)) as [lines Hlines].
    exists d, lines. repeat split.
    + apply (renderMatches_lines e payload p dv d items lines); assumption.
    + symmetry. apply (Forall2_length Hlines).
    + exact Hlines.
    + intros ->. apply Hfall. reflexivity.
Qed.

(** The statement at a list of two records, the second one spelt with the
    alternate field names. *)
Lemma rendered_lines_follow_list_witness :
  exists (d : string) (lines : list string),
    renderMatches sample_env (JArr two_records) sample_page
    = (set_list lines
         (setStatus ("date: " ++ d ++ " • matches: "
                     ++ dec (Z.of_nat (List.length two_records))) sample_page),
       Ok tt)
    /\ List.length lines = List.length two_records
    /\ Forall2 (fun m line => render_line sample_env m = Ok line) two_records lines
    /\ (JArr two_records = JArr two_records -> d = "2024-05-01").
Proof.
  apply (proj2 (proj2 (proj2 rendered_lines_follow_list))
           sample_env "2024-05-01" (JArr two_records) two_records sample_page).
  - reflexivity.
  - reflexivity.
  - discriminate.
  - reflexivity.
  - reflexivity.
Defined.

(** C1 without the conditions on the elements fails: a null element stops
    the loop with a TypeError, here after one of two items, and so does an
    element whose league is an object with an own [toString] property,
    which has no text. *)
Lemma null_element_stops_rendering :
  let payload := JArr [JObj []; JNull] in
  let r := renderMatches sample_env payload sample_page in
  let payload' := JArr [JObj [("league_name", JObj [("toString", JNum 1)])]] in
  let r' := renderMatches sample_env payload' sample_page in
  resolve_matches payload = JArr [JObj []; JNull]
  /\ snd r = Throw (Engine (ReadOfNullish K.date_utc))
  /\ list_items (fst r) = ["[—] Home vs Away — <1714561445678>"]
  /\ List.length (list_items (fst r)) <> List.length [JObj []; JNull]
  /\ snd r' = Throw (Engine NoPrimitive)
  /\ list_items (fst r') = [].
Proof. repeat split. discriminate. Qed.

Example two_records_rendered :
  renderMatches sample_env (JArr two_records) sample_page
  = (set_list ["[Serie A] Roma 2–1 Lazio — <2024-05-01T18:00:00Z>";
               "[La Liga] Betis vs Sevilla — <1714586400000>"]
       (setStatus "date: 2024-05-01 • matches: 2" sample_page),
     Ok tt).
Proof. reflexivity. Qed.

Lemma bare_parts payload :
  bare payload = true ->
  isArray payload = false
  /\ nullish (opt_member payload K.date) = true
  /\ nullish (opt_member payload K.matches) = true.
Proof.
  unfold bare. intros H.
  apply andb_prop in H as [H Hm]. apply andb_prop in H as [Ha Hd].
  apply negb_true_iff in Ha. repeat split; assumption.
Qed.

Example duplicates_are_kept :
  list_items (fst (renderMatches sample_env
                     (JArr [JObj [("home", JStr "B")]; JObj [("home", JStr "A")];
                            JObj [("home", JStr "B")]])
                     sample_page))
  = ["[—] B vs Away — <1714561445678>";
     "[—] A vs Away — <1714561445678>";
     "[—] B vs Away — <1714561445678>"].
Proof. reflexivity. Qed.

(** C8, amended.  A payload with neither a date nor a match list does not
    make renderMatches throw: null, undefined, a boolean, a number, a
    string, or an object whose [date] and [matches] are missing or null.
    The date shown is today's local date, the match list resolves to the
    empty list and the empty-case entry is rendered. *)
Theorem bare_payload_renders_empty_case (e : env) (today : string) :
  toLocalISODate e = Ok today ->
  (forall (payload : value) (p : page),
     bare payload = true ->
     display_date e payload = Ok (JStr today)
     /\ resolve_matches payload = JArr []
     /\ renderMatches e payload p
        = (set_list [no_matches_text]
             (setStatus ("date: " ++ today ++ " • matches: 0") p),
           Ok tt))
  /\ bare JNull = true
  /\ bare JUndefined = true
  /\ (forall b, bare (JBool b) = true)
  /\ (forall n, bare (JNum n) = true)
  /\ (forall s, bare (JStr s) = true)
  /\ (forall props,
        has_own "date" props = false -> has_own "matches" props = false ->
        bare (JObj props) = true).
Proof.
  intros Htoday.
  split; [|repeat split].
  - intros payload p Hbare.
    destruct (bare_parts payload Hbare) as (Harr & Hdate & Hmatches).
    assert (Hshown : display_date e payload = Ok (JStr today)).
    { unfold display_date. rewrite Hdate, Htoday. reflexivity. }
    assert (Hres : resolve_matches payload = JArr []).
    { unfold resolve_matches, coalesce. rewrite Harr, Hmatches. reflexivity. }
    repeat split; try assumption.
    apply (renderMatches_no_matches e payload p (JStr today) today "0");
      try assumption; try reflexivity; rewrite Hres; reflexivity.
  - intros props Hd Hm. unfold bare, opt_member, get. simpl.
    rewrite (lookup_absent _ _ Hd), (lookup_absent _ _ Hm). reflexivity.
Qed.

(** The statement in a browser two hours east of Greenwich on 2024-05-01. *)
Lemma bare_payload_renders_empty_case_witness :
  (forall (payload : value) (p : page),
     bare payload = true ->
     display_date sample_env payload = Ok (JStr "2024-05-01")
     /\ resolve_matches payload = JArr []
     /\ renderMatches sample_env payload p
        = (set_list [no_matches_text]
             (setStatus ("date: " ++ "2024-05-01" ++ " • matches: 0") p),
           Ok tt))
  /\ bare JNull = true
  /\ bare JUndefined = true
  /\ (forall b, bare (JBool b) = true)
  /\ (forall n, bare (JNum n) = true)
  /\ (forall s, bare (JStr s) = true)
  /\ (forall props,
        has_own "date" props = false -> has_own "matches" props = false ->
        bare (JObj props) = true).
Proof.
  apply (bare_payload_renders_empty_case sample_env "2024-05-01"). reflexivity.
Defined.

(** C8 over every payload fails: renderMatches is not total.  A list
    holding null throws on the first property read of the loop body. *)
Lemma null_element_throws :
  snd (renderMatches sample_env (JArr [JNull]) sample_page)
  = Throw (Engine (ReadOfNullish K.date_utc)).
Proof. reflexivity. Qed.

(** ** Failed requests *)

Lemma contains_at_start (sub rest : string) : contains sub (sub ++ rest).
Proof. exists "", rest. reflexivity. Qed.

Lemma contains_at_end (front sub : string) : contains sub (front ++ sub).
Proof. exists front, "". rewrite append_empty_r. reflexivity. Qed.

Lemma http_error_message_parts status txt url :
  contains ("HTTP " ++ dec status) (http_error_message status txt url)
  /\ (txt <> "" -> contains txt (http_error_message status txt url))
  /\ (txt = "" -> contains url (http_error_message status txt url)).
Proof.
  unfold http_error_message. repeat split.
  - change ("HTTP " ++ dec status ++ " • " ++ (if negb (txt =? "") then txt else url))
      with ("HTTP " ++ (dec status ++ " • " ++ (if negb (txt =? "") then txt else url))).
    rewrite <- append_assoc. apply contains_at_start.
  - intros Htxt. destruct (String.eqb_spec txt ""); [contradiction|]. simpl negb.
    rewrite <- (append_assoc (dec status)), <- (append_assoc "HTTP ").
    apply contains_at_end.
  - intros ->. simpl negb.
    rewrite <- (append_assoc (dec status)), <- (append_assoc "HTTP ").
    apply contains_at_end.
Qed.

(** Resuming [fetchJSON] settlement by settlement ends in the outcome of
    [fetchJSON] on the exchange those settlements belong to. *)
Lemma fetchJSON_resume_agrees url x :
  match fetchJSON_resume (AwaitFetch url) (FetchSettled (response x)) with
  | Some (inr outcome) => outcome = fetchJSON url x
  | Some (inl (AwaitText u status)) =>
      fetchJSON_resume (AwaitText u status) (TextSettled (body_text x))
      = Some (inr (fetchJSON url x))
  | Some (inl AwaitJson) =>
      fetchJSON_resume AwaitJson (JsonSettled (body_json x))
      = Some (inr (fetchJSON url x))
  | _ => False
  end.
Proof.
  unfold fetchJSON. simpl. destruct (response x) as [status|err]; [|reflexivity].
  destruct (ok status); reflexivity.
Qed.

(** A failed call leaves the catch block's page: error logged, status
    "error: <message>", list cleared, buttons enabled again. *)
Lemma action_finish_throw e err p :
  action_finish e (Throw err) p
  = setLoading false (clear_list (setStatus ("error: " ++ message e err) (console_error err p))).
Proof. reflexivity. Qed.

(** C3. On a response whose status is not a success, fetchJSON throws an
    error whose message holds the status code and the body text, or the
    request URL when the body is empty (or cannot be read).  Both actions
    then show "error: <message>" as status and clear the list.  A 500 with
    body "boom" gives the message "HTTP 500 • boom", which contains
    "HTTP 500" and "boom", the status "error: HTTP 500 • boom" and an empty
    list. *)
Theorem http_error_surfaces :
  (forall (url : string) (x : exchange) (status : Z),
     response x = Ok status -> ok status = false ->
     let txt := match body_text x with Ok t => t | Throw _ => "" end in
     let msg := http_error_message status txt url in
     fetchJSON url x = Throw (Thrown msg)
     /\ contains ("HTTP " ++ dec status) msg
     /\ (txt <> "" -> contains txt msg)
     /\ (txt = "" -> contains url msg))
  /\ (forall (api : string) (e : env) (x : exchange) (status : Z) (p : page),
        response x = Ok status -> ok status = false ->
        let txt := match body_text x with Ok t => t | Throw _ => "" end in
        let shown := fetchToday api e x p in
        status_text shown = "error: " ++ http_error_message status txt (today_url api)
        /\ list_items shown = [])
  /\ (forall (api : string) (e : env) (d : string) (x : exchange) (status : Z) (p : page),
        response x = Ok status -> ok status = false ->
        let txt := match body_text x with Ok t => t | Throw _ => "" end in
        let shown := fetchDate api e d x p in
        status_text shown = "error: " ++ http_error_message status txt (date_url api d)
        /\ list_items shown = [])
  /\ (forall url : string,
        fetchJSON url http_500_boom = Throw (Thrown "HTTP 500 • boom"))
  /\ contains "HTTP 500" "HTTP 500 • boom"
  /\ contains "boom" "HTTP 500 • boom"
  /\ (forall (api : string) (e : env) (p : page),
        status_text (fetchToday api e http_500_boom p) = "error: HTTP 500 • boom"
        /\ list_items (fetchToday api e http_500_boom p) = [])
  /\ (forall (api : string) (e : env) (d : string) (p : page),
        status_text (fetchDate api e d http_500_boom p) = "error: HTTP 500 • boom"
        /\ list_items (fetchDate api e d http_500_boom p) = []).
Proof.
  assert (Hthrow : forall url x status,
            response x = Ok status -> ok status = false ->
            fetchJSON url x
            = Throw (Thrown (http_error_message status
                               match body_text x with Ok t => t | Throw _ => "" end url))).
  { intros url x status Hres Hok. unfold fetchJSON. rewrite Hres, Hok. reflexivity. }
  split; [|split; [|split; [|split; [|split; [|split; [|split]]]]]].
  - intros url x status Hres Hok txt msg.
    split; [apply Hthrow; assumption | apply http_error_message_parts].
  - intros api e x status p Hres Hok txt shown. subst shown.
    unfold fetchToday, fetchToday_begin.
    rewrite (Hthrow _ _ _ Hres Hok), action_finish_throw. split; reflexivity.
  - intros api e d x status p Hres Hok txt shown. subst shown.
    unfold fetchDate, fetchDate_begin.
    rewrite (Hthrow _ _ _ Hres Hok), action_finish_throw. split; reflexivity.
  - reflexivity.
  - apply (contains_at_start "HTTP 500" " • boom").
  - apply (contains_at_end "HTTP 500 • " "boom").
  - intros api e p. split; reflexivity.
  - intros api e d p. split; reflexivity.
Qed.

(** ** Buttons and requests in flight *)

Lemma begin_today_disables api p : both_disabled (fst (fetchToday_begin api p)).
Proof. split; reflexivity. Qed.

Lemma begin_date_disables api d p : both_disabled (fst (fetchDate_begin api d p)).
Proof. split; reflexivity. Qed.

(** The finally block runs on every path out of the try block. *)
Lemma finish_enables e outcome p : both_enabled (action_finish e outcome p).
Proof.
  unfold action_finish, try_catch_finally.
  destruct ((data <- lift outcome ;; renderMatches e data)%script p) as [p' [u|err]];
    split; reflexivity.
Qed.

Lemma startup_busy api e loaded a : startup api e loaded = Some a -> busy a.
Proof.
  unfold startup. destruct (toLocalISODate e) as [today|err]; [|discriminate].
  intros H. injection H as <-. split.
  - eexists. reflexivity.
  - apply begin_today_disables.
Qed.

Lemma step_idle_or_busy api e ev a :
  idle a \/ busy a -> idle (step api e ev a) \/ busy (step api e ev a).
Proof.
  intros Ha. destruct ev as [| |text|i s]; simpl.
  - destruct Ha as [[Ht [Hb1 Hb2]]|[Ht [Hb1 Hb2]]].
    + rewrite Hb1. right. split; [|apply begin_today_disables].
      unfold spawn. simpl. rewrite Ht. eexists. reflexivity.
    + rewrite Hb1. right. split; [exact Ht | split; assumption].
  - destruct Ha as [[Ht [Hb1 Hb2]]|[Ht [Hb1 Hb2]]].
    + rewrite Hb2. destruct (load_argument e (ui a)) as [d|err].
      * right. split; [|apply begin_date_disables].
        unfold spawn. simpl. rewrite Ht. eexists. reflexivity.
      * left. split; [exact Ht | split; assumption].
    + rewrite Hb2. right. split; [exact Ht | split; assumption].
  - destruct Ha as [[Ht Hb]|[Ht Hb]]; [left | right]; split; simpl; assumption.
  - destruct Ha as [[Ht Hb]|[[st Ht] Hb]].
    + rewrite Ht. destruct i; simpl; left; split; assumption.
    + rewrite Ht. destruct i as [|j]; simpl.
      * destruct (fetchJSON_resume st s) as [[st'|outcome]|].
        -- right. split; [|exact Hb]. simpl. eexists. reflexivity.
        -- left. split; [reflexivity | apply finish_enables].
        -- right. split; [exists st; exact Ht | exact Hb].
      * destruct j; simpl; right; (split; [exists st; exact Ht | exact Hb]).
Qed.

Lemma reachable_idle_or_busy api a : reachable api a -> idle a \/ busy a.
Proof.
  induction 1 as [e loaded a Hstart | e ev a _ IH].
  - right. eapply startup_busy, Hstart.
  - apply step_idle_or_busy, IH.
Qed.

(** C7. Both buttons are disabled before either action makes its request,
    stay disabled for as long as a request is pending, and are enabled
    again when the action completes, whether the fetch succeeded or
    failed.  Through every sequence of clicks, edits and settlements after
    startup at most one action is in flight. *)
Theorem controls_disabled_while_pending :
  (forall (api : string) (p : page),
     both_disabled (fst (fetchToday_begin api p)))
  /\ (forall (api d : string) (p : page),
        both_disabled (fst (fetchDate_begin api d p)))
  /\ (forall (api : string) (a : session),
        reachable api a ->
        (tasks a <> [] -> both_disabled (ui a))
        /\ (tasks a = [] -> both_enabled (ui a))
        /\ (List.length (tasks a) <= 1)%nat)
  /\ (forall (e : env) (outcome : result value) (p : page),
        both_enabled (action_finish e outcome p))
  /\ (forall (api : string) (e : env) (x : exchange) (p : page),
        both_enabled (fetchToday api e x p))
  /\ (forall (api : string) (e : env) (d : string) (x : exchange) (p : page),
        both_enabled (fetchDate api e d x p)).
Proof.
  split; [exact begin_today_disables|].
  split; [exact begin_date_disables|].
  split; [|split; [exact finish_enables | split]].
  - intros api a Hreach.
    destruct (reachable_idle_or_busy api a Hreach) as [[Ht Hb]|[[st Ht] Hb]];
      rewrite Ht; repeat split; try (apply Hb); try congruence; simpl; lia.
  - intros api e x p. apply finish_enables.
  - intros api e d x p. apply finish_enables.
Qed.

(** Delivering an exchange to the only task in flight completes the action
    with the outcome of [fetchJSON] on that exchange. *)
Lemma run_settlements api e x url p :
  run api e (settlements x) {| ui := p; tasks := [AwaitFetch url] |}
  = {| ui := action_finish e (fetchJSON url x) p; tasks := [] |}.
Proof.
  unfold run, settlements, fetchJSON.
  cbn [fold_left step nth_error tasks ui fetchJSON_resume].
  destruct (response x) as [status|err]; [|reflexivity].
  destruct (ok status); reflexivity.
Qed.

(** The event-by-event run of an action and its run to completion agree. *)
Lemma run_today_agrees api e x a :
  tasks a = [] -> btnToday_disabled (ui a) = false ->
  run api e (ClickToday :: settlements x) a
  = {| ui := fetchToday api e x (ui a); tasks := [] |}.
Proof.
  intros Ht Hb. change (run api e (ClickToday :: settlements x) a)
    with (run api e (settlements x) (step api e ClickToday a)).
  cbn [step]. rewrite Hb. unfold spawn, fetchToday_begin. rewrite Ht.
  cbn [fst snd List.app]. apply run_settlements.
Qed.

Lemma run_date_agrees api e x a :
  tasks a = [] -> btnLoad_disabled (ui a) = false -> date_value (ui a) <> "" ->
  run api e (ClickLoad :: settlements x) a
  = {| ui := fetchDate api e (date_value (ui a)) x (ui a); tasks := [] |}.
Proof.
  intros Ht Hb Hd. change (run api e (ClickLoad :: settlements x) a)
    with (run api e (settlements x) (step api e ClickLoad a)).
  cbn [step]. rewrite Hb. unfold load_argument.
  destruct (String.eqb_spec (date_value (ui a)) ""); [contradiction|].
  cbn [negb]. unfold spawn, fetchDate_begin. rewrite Ht.
  cbn [fst snd List.app]. apply run_settlements.
Qed.

Lemma sample_pending_reachable : reachable local_backend sample_pending.
Proof.
  unfold sample_pending. do 2 apply reach_step.
  apply (reach_startup local_backend sample_env sample_page). reflexivity.
Qed.

(** The statement while the first request waits for its body, and once the
    body has been rendered. *)
Lemma controls_disabled_while_pending_witness :
  ((tasks sample_pending <> [] -> both_disabled (ui sample_pending))
   /\ (tasks sample_pending = [] -> both_enabled (ui sample_pending))
   /\ (List.length (tasks sample_pending) <= 1)%nat)
  /\ ((tasks sample_done <> [] -> both_disabled (ui sample_done))
      /\ (tasks sample_done = [] -> both_enabled (ui sample_done))
      /\ (List.length (tasks sample_done) <= 1)%nat).
Proof.
  split.
  - apply (proj1 (proj2 (proj2 controls_disabled_while_pending)) local_backend).
    exact sample_pending_reachable.
  - apply (proj1 (proj2 (proj2 controls_disabled_while_pending)) local_backend).
    unfold sample_done. apply reach_step. exact sample_pending_reachable.
Defined.

Example sample_run_states :
  tasks sample_started = [AwaitFetch "http://127.0.0.1:8000/api/matches/today"]
  /\ status_text (ui sample_started) = "loading /api/matches/today …"
  /\ tasks sample_pending = [AwaitJson]
  /\ both_disabled (ui sample_pending)
  /\ tasks sample_done = []
  /\ both_enabled (ui sample_done)
  /\ status_text (ui sample_done) = "date: 2024-05-01 • matches: 2"
  /\ List.length (list_items (ui sample_done)) = 2%nat.
Proof. repeat split. Qed.

(** ** The date sent by the load button *)

(** C10, amended.  Activating the load button while the date field is the
    empty string never passes the empty string on: fetchDate is invoked
    with whatever toLocalISODate() returns, which is not empty.  With the
    local clock in the years 0 to 9999 that is today's local date - the
    civil date of the day the clock shows after the shift by the time-zone
    offset - spelt YYYY-MM-DD with a month from 01 to 12 and a day from 01
    to 31, and it goes into the request URL unchanged as the [d]
    parameter. *)
Theorem empty_date_field_loads_today (api : string) (e : env) (a : session) :
  btnLoad_disabled (ui a) = false ->
  date_value (ui a) = "" ->
  (forall arg : string,
     toLocalISODate e = Ok arg ->
     arg <> ""
     /\ load_argument e (ui a) = Ok arg
     /\ step api e ClickLoad a = spawn a (fetchDate_begin api arg (ui a)))
  /\ (four_digit_year e ->
      let today := date_text (civil_from_days (local_day e)) in
      toLocalISODate e = Ok today
      /\ is_iso_date today = true
      /\ (0 <= fst (fst (civil_from_days (local_day e))) <= 9999)%Z
      /\ (1 <= snd (fst (civil_from_days (local_day e))) <= 12)%Z
      /\ (1 <= snd (civil_from_days (local_day e)) <= 31)%Z
      /\ load_argument e (ui a) = Ok today
      /\ step api e ClickLoad a = spawn a (fetchDate_begin api today (ui a))
      /\ tasks (step api e ClickLoad a)
         = (tasks a ++ [AwaitFetch (api ++ "/api/matches/date?d=" ++ today)%string])%list).
Proof.
  intros Henabled Hempty.
  assert (Hcall : forall arg, toLocalISODate e = Ok arg ->
            load_argument e (ui a) = Ok arg
            /\ step api e ClickLoad a = spawn a (fetchDate_begin api arg (ui a))).
  { intros arg Harg.
    assert (Hload : load_argument e (ui a) = Ok arg).
    { unfold load_argument. rewrite Hempty. exact Harg. }
    split; [exact Hload|]. simpl. rewrite Henabled, Hload. reflexivity. }
  split.
  - intros arg Harg. split; [exact (toLocalISODate_not_empty e arg Harg)|].
    exact (Hcall arg Harg).
  - intros Hclock today.
    pose proof (toLocalISODate_four_digit_year e Hclock) as Htoday.
    assert (Hshape : is_iso_date today = true) by apply date_text_is_iso_date.
    assert (Hdays : (-719528 <= local_day e < 2932897)%Z).
    { unfold local_day, ms_per_day. unfold four_digit_year in Hclock.
      Z.div_mod_to_equations. lia. }
    pose proof (civil_year_four_digits _ Hdays) as Hyear.
    pose proof (civil_month_day_range (local_day e)) as [Hmonth Hday].
    fold today in Htoday. clearbody today.
    destruct (Hcall today Htoday) as [Hload Hstep].
    split; [exact Htoday|]. split; [exact Hshape|].
    split; [exact Hyear|]. split; [exact Hmonth|]. split; [exact Hday|].
    split; [exact Hload|]. split; [exact Hstep|].
    rewrite Hstep. unfold spawn, fetchDate_begin, date_url.
    cbn [snd tasks]. rewrite (encode_iso_date today Hshape). reflexivity.
Qed.

(** The statement on the page as served, on 2024-05-01 two hours east of
    Greenwich. *)
Lemma empty_date_field_loads_today_witness :
  toLocalISODate sample_env = Ok "2024-05-01"
  /\ load_argument sample_env sample_page = Ok "2024-05-01"
  /\ tasks (step local_backend sample_env ClickLoad {| ui := sample_page; tasks := [] |})
     = [AwaitFetch "http://127.0.0.1:8000/api/matches/date?d=2024-05-01"].
Proof.
  destruct (empty_date_field_loads_today local_backend sample_env
              {| ui := sample_page; tasks := [] |} eq_refl eq_refl)
    as [_ Hrange].
  assert (Hclock : four_digit_year sample_env).
  { unfold four_digit_year. simpl. lia. }
  destruct (Hrange Hclock) as (Htoday & _ & _ & _ & _ & Hload & _ & Htasks).
  vm_compute in Htoday, Hload, Htasks.
  split; [exact Htoday|]. split; [exact Hload | exact Htasks].
Defined.

(** C10 for every clock fails: in the year 10000 toISOString() writes a
    sign and six digits for the year, the first ten characters are
    "+010000-01", and that text, not a YYYY-MM-DD date, is the argument of
    fetchDate and the [d] parameter of the request. *)
Lemma year_10000_sends_no_date :
  btnLoad_disabled sample_page = false
  /\ date_value sample_page = ""
  /\ toLocalISODate year_10000 = Ok "+010000-01"
  /\ is_iso_date "+010000-01" = false
  /\ load_argument year_10000 sample_page = Ok "+010000-01"
  /\ step local_backend year_10000 ClickLoad {| ui := sample_page; tasks := [] |}
     = spawn {| ui := sample_page; tasks := [] |}
         (fetchDate_begin local_backend "+010000-01" sample_page)
  /\ tasks (step local_backend year_10000 ClickLoad {| ui := sample_page; tasks := [] |})
     = [AwaitFetch "http://127.0.0.1:8000/api/matches/date?d=%2B010000-01"].
Proof. repeat split; vm_compute; reflexivity. Qed.

(** The local day, not the day in UTC: five minutes before midnight UTC,
    two hours east of Greenwich, the argument is the next day. *)
Example empty_date_field_late_evening :
  toISOString (now late_evening) = Ok "2024-05-01T23:55:00.000Z"
  /\ load_argument late_evening sample_page = Ok "2024-05-02".
Proof. split; vm_compute; reflexivity. Qed.

Example empty_date_field_request :
  step local_backend sample_env ClickLoad {| ui := sample_page; tasks := [] |}
  = {| ui := setStatus "loading /api/matches/date?d=2024-05-01 …"
               (setLoading true sample_page);
       tasks := [AwaitFetch "http://127.0.0.1:8000/api/matches/date?d=2024-05-01"] |}.
Proof. reflexivity. Qed.

Example encodeURIComponent_sample :
  encodeURIComponent "a b/ç" = "a%20b%2F%C3%A7".
Proof. reflexivity. Qed.
Example to_string_nested :
  to_string (JArr [JNum 1; JNull; JArr [JStr "a"; JBool true]; JObj []])
  = Ok "1,,a,true,[object Object]".
Proof. reflexivity. Qed.

Example code_points_mixed :
  code_points "a—b" = ["a"; "—"; "b"] /\ utf16_length "a—b" = 3.
Proof. split; reflexivity. Qed.

Example iso_2024_05_01 :
  toISOString 1714561445678 = Ok "2024-05-01T11:04:05.678Z".
Proof. reflexivity. Qed.

Example iso_before_epoch :
  toISOString (-1) = Ok "1969-12-31T23:59:59.999Z".
Proof. reflexivity. Qed.

Example iso_leap_day :
  toISOString 951782400000 = Ok "2000-02-29T00:00:00.000Z".
Proof. reflexivity. Qed.

(** * Further properties of the script *)

(** ** The render loop on any list *)

(** A list either renders whole, or splits at its first element that does
    not render. *)
Lemma render_split e items :
  (exists lines, Forall2 (fun m line => render_line e m = Ok line) items lines)
  \/ (exists before m rest lines err,
        items = (before ++ m :: rest)%list
        /\ Forall2 (fun m line => render_line e m = Ok line) before lines
        /\ render_line e m = Throw err).
Proof.
  induction items as [|x items IH].
  - left. exists []. constructor.
  - destruct (render_line e x) as [line|err] eqn:Hx.
    + destruct IH as [[lines H]|(before & m & rest & lines & err & Hsplit & Hbefore & Hm)].
      * left. exists (line :: lines). constructor; assumption.
      * right. exists (x :: before), m, rest, (line :: lines), err.
        repeat split; [rewrite Hsplit; reflexivity | constructor; assumption | exact Hm].
    + right. exists [], x, items, [], err. repeat split; [constructor | exact Hx].
Qed.

(** Whatever the list, the loop only appends to the list node, and what it
    appends and how it ends do not depend on the page. *)
Lemma for_each_outcome e items :
  exists (lines : list string) (r : result unit),
    (forall p,
       for_each items
         (fun m => (line <- lift (render_line e m) ;; write (appendChild (li line)))%script) p
       = (set_list (list_items p ++ lines) p, r))
    /\ (r = Ok tt -> List.length lines = List.length items).
Proof.
  destruct (render_split e items)
    as [[lines H]|(before & m & rest & lines & err & -> & Hbefore & Hm)].
  - exists lines, (Ok tt). split.
    + intros p. apply for_each_lines, H.
    + intros _. symmetry. apply (Forall2_length H).
  - exists lines, (Throw err). split.
    + intros p. apply (for_each_stops e before lines m err rest Hbefore Hm).
    + discriminate.
Qed.

Lemma code_points_nonempty s : s <> "" -> code_points s <> [].
Proof.
  destruct s as [|c rest]; [contradiction|]. intros _. simpl.
  destruct (starts_in_sequence rest); [destruct (code_points rest)|]; discriminate.
Qed.

Lemma truthy_length_iterate matches items :
  truthy (get matches K.length) = true -> iterate matches = Ok items -> items <> [].
Proof.
  destruct matches; simpl; try discriminate.
  - intros Hlen H. injection H as <-. intros Hnil.
    apply map_eq_nil in Hnil. revert Hnil. apply code_points_nonempty.
    intros ->. discriminate.
  - intros Hlen H. injection H as <-. intros ->. discriminate.
Qed.

(** The three ways [renderMatches] can go: it throws on line 53 and
    touches nothing; it throws on line 57 having cleared the list; or it
    writes a status line that begins with "date: " and a list, both fixed by
    the payload and the clock alone.  It returns normally only with a
    non-empty list. *)
Lemma renderMatches_outcome e payload :
  (exists err, forall p, renderMatches e payload p = (p, Throw err))
  \/ (exists err, forall p, renderMatches e payload p = (clear_list p, Throw err))
  \/ (exists (status : string) (lines : list string) (r : result unit),
        (forall p, renderMatches e payload p = (set_list lines (setStatus status p), r))
        /\ starts_with "date: " status
        /\ (r = Ok tt -> lines <> [])).
Proof.
  unfold renderMatches.
  destruct (display_date e payload) as [dv|err] eqn:Hdate;
    [|left; exists err; intros p; reflexivity].
  right.
  destruct (status_line dv (resolve_matches payload)) as [status|err] eqn:Hstatus.
  2:{ left. exists err. intros p.
      unfold bind at 1. unfold lift at 1.
      unfold bind at 1. unfold write at 1.
      unfold bind at 1. unfold lift at 1. rewrite Hstatus. reflexivity. }
  right.
  assert (Hstarts : starts_with "date: " status).
  { unfold status_line in Hstatus.
    apply rbind_ok in Hstatus as (d & _ & Hstatus).
    apply rbind_ok in Hstatus as (n & _ & Hstatus).
    injection Hstatus as <-. eexists. reflexivity. }
  destruct (truthy (get (resolve_matches payload) K.length)) eqn:Hlen.
  - destruct (iterate (resolve_matches payload)) as [items|err] eqn:Hiter.
    + destruct (for_each_outcome e items) as (lines & r & Hloop & Hcount).
      exists status, lines, r. repeat split; [|exact Hstarts|].
      * intros p.
        unfold bind at 1. unfold lift at 1.
        unfold bind at 1. unfold write at 1.
        unfold bind at 1. unfold lift at 1. rewrite Hstatus.
        unfold bind at 1. unfold write at 1.
        cbn [negb]. unfold bind at 1. unfold lift at 1.
        rewrite Hloop. reflexivity.
      * intros Hr Hnil. apply (truthy_length_iterate _ _ Hlen Hiter).
        specialize (Hcount Hr). rewrite Hnil in Hcount.
        destruct items; [reflexivity | discriminate].
    + exists status, [], (Throw err). repeat split; [|exact Hstarts|discriminate].
      intros p.
      unfold bind at 1. unfold lift at 1.
      unfold bind at 1. unfold write at 1.
      unfold bind at 1. unfold lift at 1. rewrite Hstatus.
      unfold bind at 1. unfold write at 1.
      cbn [negb]. unfold bind at 1. unfold lift at 1. reflexivity.
  - exists status, [no_matches_text], (Ok tt). repeat split; [|exact Hstarts|discriminate].
    intros p.
    unfold bind at 1. unfold lift at 1.
    unfold bind at 1. unfold write at 1.
    unfold bind at 1. unfold lift at 1. rewrite Hstatus.
    unfold bind at 1. unfold write at 1. reflexivity.
Qed.

Lemma same_controls_shown status lines p q :
  same_controls p q ->
  set_list lines (setStatus status q) = set_list lines (setStatus status p).
Proof.
  intros (Hd & Ht & Hl & Hc). unfold set_list, setStatus. cbn.
  rewrite Hd, Ht, Hl, Hc. reflexivity.
Qed.

Lemma renderMatches_frame e payload p :
  same_controls p (fst (renderMatches e payload p)).
Proof.
  destruct (renderMatches_outcome e payload)
    as [[err H]|[[err H]|(status & lines & r & H & _)]];
    rewrite H; repeat split.
Qed.

(** X1. renderMatches writes the status node and the list node only: the
    date field, the two buttons and the console are as before, whatever the
    payload and whether or not it throws. *)
Theorem renderMatches_keeps_controls (e : env) (payload : value) (p : page) :
  date_value (fst (renderMatches e payload p)) = date_value p
  /\ btnToday_disabled (fst (renderMatches e payload p)) = btnToday_disabled p
  /\ btnLoad_disabled (fst (renderMatches e payload p)) = btnLoad_disabled p
  /\ console (fst (renderMatches e payload p)) = console p.
Proof. exact (renderMatches_frame e payload p). Qed.

(** X2. A render replaces what an earlier render showed.  Rendering the
    same payload twice leaves the page of the first render, and a render
    that returns normally shows the same page whether or not another
    payload was rendered before it. *)
Theorem render_replaces_previous :
  (forall (e : env) (payload : value) (p : page),
     renderMatches e payload (fst (renderMatches e payload p))
     = renderMatches e payload p)
  /\ (forall (e e' : env) (payload payload' : value) (p : page),
        snd (renderMatches e payload p) = Ok tt ->
        renderMatches e payload (fst (renderMatches e' payload' p))
        = renderMatches e payload p).
Proof.
  split.
  - intros e payload p.
    destruct (renderMatches_outcome e payload)
      as [[err H]|[[err H]|(status & lines & r & H & _)]];
      rewrite !H; reflexivity.
  - intros e e' payload payload' p Hok.
    pose proof (renderMatches_frame e' payload' p) as Hsame.
    destruct (renderMatches_outcome e payload)
      as [[err H]|[[err H]|(status & lines & r & H & _)]].
    + rewrite H in Hok. discriminate.
    + rewrite H in Hok. discriminate.
    + rewrite !H. f_equal. apply same_controls_shown, Hsame.
Qed.

(** The second render of a page that already shows two records. *)
Lemma render_replaces_previous_witness :
  renderMatches sample_env (JArr two_records)
    (fst (renderMatches sample_env matches_is_number sample_page))
  = renderMatches sample_env (JArr two_records) sample_page.
Proof.
  apply (proj2 render_replaces_previous sample_env sample_env
           (JArr two_records) matches_is_number sample_page).
  reflexivity.
Defined.






Example broken_list_rendered :
  renderMatches sample_env (JArr broken_list) sample_page
  = (set_list ["[—] Home vs Away — <1714561445678>"]
       (setStatus "date: 2024-05-01 • matches: 3" sample_page),
     Throw (Engine (ReadOfNullish K.date_utc))).
Proof. reflexivity. Qed.

(** ** A [matches] field that is not a list *)

(** X4. When [matches] is a number, a boolean or an object without a
    [length], the status line reads "matches: undefined" and the empty-case
    entry is shown; when it is an object whose [length] is truthy, the
    status line is written with that length and the loop then throws, the
    list left empty.  The date and the length hold safe integers only, so
    that their text is the engine's. *)
Theorem matches_that_is_no_list
    (e : env) (payload : value) (p : page) (dv : value) (d : string) :
  display_date e payload = Ok dv ->
  exact_text dv = true ->
  to_string dv = Ok d ->
  (match resolve_matches payload with
   | JBool _ | JNum _ => True
   | JObj props => has_own "length" props = false
   | _ => False
   end ->
   renderMatches e payload p
   = (set_list ["No matches for this date."]
        (setStatus ("date: " ++ d ++ " • matches: undefined") p),
      Ok tt))
  /\ (forall (props : list (string * value)) (n : string),
        resolve_matches payload = JObj props ->
        truthy (lookup "length" props) = true ->
        exact_text (lookup "length" props) = true ->
        to_string (lookup "length" props) = Ok n ->
        renderMatches e payload p
        = (set_list [] (setStatus ("date: " ++ d ++ " • matches: " ++ n) p),
           Throw (Engine NotIterable))).
Proof.
  intros Hdate _ Hd. split.
  - intros Hshape.
    apply (renderMatches_no_matches e payload p dv d "undefined"); try assumption;
      destruct (resolve_matches payload) as [| |b|n|s|items|props]; try contradiction;
      try reflexivity; simpl; rewrite (lookup_absent _ _ Hshape); reflexivity.
  - intros props n Hres Hlen _ Hn.
    unfold renderMatches, status_line. rewrite Hres. simpl get.
    unfold bind at 1. unfold lift at 1. rewrite Hdate.
    unfold bind at 1. unfold write at 1.
    unfold bind at 1. unfold lift at 1. rewrite Hd, Hn. simpl rbind.
    unfold bind at 1. unfold write at 1.
    rewrite Hlen. reflexivity.
Qed.

(** The statement at [{date: "2024-05-01", matches: 3}] and at
    [{date: "2024-05-01", matches: {length: 2}}]. *)
Lemma matches_that_is_no_list_witness :
  renderMatches sample_env matches_is_number sample_page
  = (set_list ["No matches for this date."]
       (setStatus "date: 2024-05-01 • matches: undefined" sample_page),
     Ok tt)
  /\ renderMatches sample_env matches_is_object sample_page
     = (set_list [] (setStatus "date: 2024-05-01 • matches: 2" sample_page),
        Throw (Engine NotIterable)).
Proof.
  split.
  - apply (proj1 (matches_that_is_no_list sample_env matches_is_number sample_page
                    (JStr "2024-05-01") "2024-05-01" eq_refl eq_refl eq_refl)).
    exact I.
  - apply (proj2 (matches_that_is_no_list sample_env matches_is_object sample_page
                    (JStr "2024-05-01") "2024-05-01" eq_refl eq_refl eq_refl)
             [("length", JNum 2)] "2"); reflexivity.
Defined.

Example matches_is_object_rendered :
  renderMatches sample_env matches_is_object sample_page
  = (set_list [] (setStatus "date: 2024-05-01 • matches: 2" sample_page),
     Throw (Engine NotIterable)).
Proof. reflexivity. Qed.

(** ** Names and times of a record *)

Lemma truthy_or_else_r a b : truthy b = true -> truthy (a '||' b) = true.
Proof. intros Hb. unfold or_else. destruct (truthy a) eqn:Ha; assumption. Qed.

Lemma truthy_text s : truthy (JStr s) = true -> s <> "".
Proof. intros H ->. discriminate. Qed.

(** X5. The fallback chains never select a falsy value: the league, the
    home team and the away team of any record are truthy, so a name that is
    a string is never the empty string. *)
Theorem names_are_never_empty (m : value) :
  truthy (league_of m) = true
  /\ truthy (home_of m) = true
  /\ truthy (away_of m) = true
  /\ (forall s, league_of m = JStr s -> s <> "")
  /\ (forall s, home_of m = JStr s -> s <> "")
  /\ (forall s, away_of m = JStr s -> s <> "").
Proof.
  assert (Hl : truthy (league_of m) = true) by (apply truthy_or_else_r; reflexivity).
  assert (Hh : truthy (home_of m) = true) by (apply truthy_or_else_r; reflexivity).
  assert (Ha : truthy (away_of m) = true) by (apply truthy_or_else_r; reflexivity).
  repeat split; try assumption; intros s Hs; apply truthy_text; rewrite <- Hs; assumption.
Qed.

(** X6. The home team is the first truthy one of [home_team], [home] and
    [teams.home.name], and "Home" when none is; the away team likewise with
    [away_team], [away], [teams.away.name] and "Away".  A record without
    [teams], or whose [teams] lacks the side, falls through to the default
    without a throw. *)
Theorem team_fallback_order (m : value) :
  let home_team := get m K.home_team in
  let home := get m K.home in
  let home_nested := opt_member (opt_member (get m K.teams) K.home) K.name in
  let away_team := get m K.away_team in
  let away := get m K.away in
  let away_nested := opt_member (opt_member (get m K.teams) K.away) K.name in
  ((truthy home_team = true -> home_of m = home_team)
   /\ (truthy home_team = false -> truthy home = true -> home_of m = home)
   /\ (truthy home_team = false -> truthy home = false ->
       truthy home_nested = true -> home_of m = home_nested)
   /\ (truthy home_team = false -> truthy home = false ->
       truthy home_nested = false -> home_of m = JStr "Home"))
  /\ ((truthy away_team = true -> away_of m = away_team)
      /\ (truthy away_team = false -> truthy away = true -> away_of m = away)
      /\ (truthy away_team = false -> truthy away = false ->
          truthy away_nested = true -> away_of m = away_nested)
      /\ (truthy away_team = false -> truthy away = false ->
          truthy away_nested = false -> away_of m = JStr "Away"))
  /\ (nullish (get m K.teams) = true -> home_nested = JUndefined /\ away_nested = JUndefined)
  /\ (nullish (opt_member (get m K.teams) K.home) = true -> home_nested = JUndefined)
  /\ (nullish (opt_member (get m K.teams) K.away) = true -> away_nested = JUndefined).
Proof.
  intros home_team home home_nested away_team away away_nested.
  split; [exact (or_else_chain home_team home home_nested (JStr "Home"))|].
  split; [exact (or_else_chain away_team away away_nested (JStr "Away"))|].
  split; [|split].
  - intros Hteams. split.
    + unfold home_nested, opt_member. rewrite Hteams. reflexivity.
    + unfold away_nested, opt_member. rewrite Hteams. reflexivity.
  - intros Hside. unfold home_nested. unfold opt_member at 1. rewrite Hside. reflexivity.
  - intros Hside. unfold away_nested. unfold opt_member at 1. rewrite Hside. reflexivity.
Qed.

Example nested_team_names :
  render_line sample_env
    (JObj [("teams", JObj [("home", JObj [("name", JStr "Betis")])]);
           ("away", JStr "Sevilla"); ("away_team", JStr "")])
  = Ok "[—] Betis vs Sevilla — <1714561445678>".
Proof. reflexivity. Qed.

(** X7. The time of a record is taken from the first truthy one of
    [date_utc], [date] and [kickoff]; a record with none, also one whose
    timestamp is the number 0 or the empty string, is shown with the current
    instant.  The time closes the rendered item after " — ". *)
Theorem time_shown_falls_back_to_now (e : env) (m : value) :
  ((truthy (get m K.date_utc) = true -> when_arg e m = get m K.date_utc)
   /\ (truthy (get m K.date_utc) = false -> truthy (get m K.date) = true ->
       when_arg e m = get m K.date)
   /\ (truthy (get m K.date_utc) = false -> truthy (get m K.date) = false ->
       truthy (get m K.kickoff) = true -> when_arg e m = get m K.kickoff)
   /\ (truthy (get m K.date_utc) = false -> truthy (get m K.date) = false ->
       truthy (get m K.kickoff) = false -> when_arg e m = JNum (now e)))
  /\ (forall line : string,
        truthy (get m K.date_utc) = false ->
        truthy (get m K.date) = false ->
        truthy (get m K.kickoff) = false ->
        render_line e m = Ok line ->
        exists front, line = front ++ " — " ++ locale_string e (JNum (now e)))
  /\ (forall (line : string) (p : value),
        render_line e m = Ok line ->
        to_primitive (when_arg e m) = Ok p ->
        exists front, line = front ++ " — " ++ locale_string e p).
Proof.
  pose proof (or_else_chain (get m K.date_utc) (get m K.date) (get m K.kickoff)
                (JNum (now e))) as Hchain.
  split; [exact Hchain|].
  assert (Hshape : forall line p,
            render_line e m = Ok line -> to_primitive (when_arg e m) = Ok p ->
            exists front, line = front ++ " — " ++ locale_string e p).
  { intros line p Hline Hp.
    apply render_line_shape in Hline
      as (p' & league & home & score & away & Hp' & _ & _ & _ & _ & ->).
    rewrite Hp in Hp'. injection Hp' as <-.
    exists ("[" ++ league ++ "] " ++ home ++ " " ++ score ++ " " ++ away).
    rewrite !append_assoc. reflexivity. }
  split; [|exact Hshape].
  intros line H1 H2 H3 Hline. apply Hshape; [exact Hline|].
  destruct Hchain as (_ & _ & _ & Hnow).
  unfold when_arg. rewrite (Hnow H1 H2 H3). reflexivity.
Qed.

(** The statement at a record whose [kickoff] is 0. *)
Lemma time_shown_falls_back_to_now_witness :
  exists front,
    "[—] Home vs Away — <1714561445678>"
    = front ++ " — " ++ locale_string sample_env (JNum (now sample_env)).
Proof.
  apply (proj1 (proj2 (time_shown_falls_back_to_now sample_env kickoff_zero))
           "[—] Home vs Away — <1714561445678>"); reflexivity.
Defined.

(** ** Outcomes of a request *)

(** X8. fetchJSON yields data exactly when the response has a status from
    200 to 299 and its body parses, and the data is that parsed body.  When
    it throws, the error is the rejection of fetch, or the HTTP error of
    line 45 for a status outside 200-299, or the rejection of json() for a
    success status. *)
Theorem fetchJSON_outcomes (url : string) (x : exchange) :
  (forall data : value,
     fetchJSON url x = Ok data
     <-> exists status : Z,
           response x = Ok status
           /\ (200 <= status <= 299)%Z
           /\ body_json x = Ok data)
  /\ (forall err : exn,
        fetchJSON url x = Throw err
        <-> response x = Throw err
            \/ (exists status : Z,
                  response x = Ok status
                  /\ ~ (200 <= status <= 299)%Z
                  /\ err = Thrown (http_error_message status
                                     match body_text x with Ok t => t | Throw _ => "" end
                                     url))
            \/ (exists status : Z,
                  response x = Ok status
                  /\ (200 <= status <= 299)%Z
                  /\ body_json x = Throw err)).
Proof.
  assert (Hok : forall status, ok status = true <-> (200 <= status <= 299)%Z).
  { intros status. unfold ok. rewrite andb_true_iff, !Z.leb_le. reflexivity. }
  unfold fetchJSON. split.
  - intros data. split.
    + destruct (response x) as [status|err]; [|discriminate].
      destruct (ok status) eqn:Hs; simpl; [|discriminate].
      intros H. exists status. repeat split; try apply Hok; assumption.
    + intros (status & -> & Hs & Hjson). apply Hok in Hs. rewrite Hs. exact Hjson.
  - intros err. split.
    + destruct (response x) as [status|err'].
      * destruct (ok status) eqn:Hs; simpl.
        -- intros H. right. right. exists status.
           repeat split; try apply Hok; assumption.
        -- intros H. injection H as <-. right. left. exists status.
           repeat split. intros Hrange. apply Hok in Hrange. congruence.
      * intros H. injection H as <-. left. reflexivity.
    + intros [->|[(status & -> & Hs & ->)|(status & -> & Hs & Hjson)]].
      * reflexivity.
      * destruct (ok status) eqn:Hs'; [apply Hok in Hs'; contradiction | reflexivity].
      * apply Hok in Hs. rewrite Hs. exact Hjson.
Qed.

Lemma renderMatches_result_fixed e data p q :
  snd (renderMatches e data p) = snd (renderMatches e data q).
Proof.
  destruct (renderMatches_outcome e data)
    as [[err H]|[[err H]|(status & lines & r & H & _)]];
    rewrite !H; reflexivity.
Qed.

(** The end of an action, by the outcome of its request. *)
Lemma action_finish_ends e outcome p q :
  date_value q = date_value p ->
  console q = console p ->
  ends_as e outcome p (action_finish e outcome q).
Proof.
  intros Hd Hc.
  split; [apply finish_enables|].
  destruct outcome as [data|err].
  - assert (Hrun : action_finish e (Ok data) q
                   = match renderMatches e data q with
                     | (q', Ok _) => setLoading false q'
                     | (q', Throw err) => setLoading false (on_error e err q')
                     end) by reflexivity.
    rewrite Hrun. clear Hrun.
    destruct (renderMatches_outcome e data)
      as [[err H]|[[err H]|(status & lines & r & H & Hstarts & Hne)]].
    + rewrite (H q). split; [exact Hd|]. left. exists err.
      split; [right; exists data; rewrite (H p); split; reflexivity|].
      repeat split. simpl. rewrite Hc. reflexivity.
    + rewrite (H q). split; [exact Hd|]. left. exists err.
      split; [right; exists data; rewrite (H p); split; reflexivity|].
      repeat split. simpl. rewrite Hc. reflexivity.
    + rewrite (H q). destruct r as [[]|err].
      * split; [exact Hd|]. right. exists data. rewrite (H p).
        repeat split; try assumption. apply Hne. reflexivity.
      * split; [exact Hd|]. left. exists err.
        split; [right; exists data; rewrite (H p); split; reflexivity|].
        repeat split. simpl. rewrite Hc. reflexivity.
  - rewrite action_finish_throw. split; [exact Hd|].
    left. exists err. split; [left; reflexivity|].
    repeat split. simpl. rewrite Hc. reflexivity.
Qed.

(** X9. However its request goes, an action ends with both buttons enabled
    and the date field as it was.  It ends in one of two ways: with an
    error - the rejection of the request, the HTTP error, the rejection of
    the body, or an error thrown while rendering - which is logged once and
    shown as "error: <message>" over an empty list, no partly rendered list
    left behind; or with the payload rendered, a status line that begins
    with "date: ", a list that is not empty and nothing logged. *)
Theorem action_ends_clean :
  (forall (api : string) (e : env) (x : exchange) (p : page),
     ends_as e (fetchJSON (today_url api) x) p (fetchToday api e x p))
  /\ (forall (api : string) (e : env) (d : string) (x : exchange) (p : page),
        ends_as e (fetchJSON (date_url api d) x) p (fetchDate api e d x p)).
Proof.
  split.
  - intros api e x p. unfold fetchToday, fetchToday_begin.
    apply action_finish_ends; reflexivity.
  - intros api e d x p. unfold fetchDate, fetchDate_begin.
    apply action_finish_ends; reflexivity.
Qed.

Example render_failure_leaves_no_partial_list :
  let shown :=
    fetchToday local_backend sample_env
      {| response := Ok 200%Z; body_text := Ok "";
         body_json := Ok (JArr broken_list) |}
      sample_page in
  status_text shown = "error: Cannot read properties of null (reading 'date_utc')"
  /\ list_items shown = []
  /\ console shown = [Engine (ReadOfNullish K.date_utc)]
  /\ both_enabled shown.
Proof. repeat split. Qed.

(** ** The request for a date *)

Lemma hex_digit_unreserved n : n < 16 -> unreserved (hex_digit n) = true.
Proof.
  intros Hn. do 16 (destruct n as [|n]; [reflexivity|]). lia.
Qed.

Lemma hex_digit_injective n m : n < 16 -> m < 16 -> hex_digit n = hex_digit m -> n = m.
Proof.
  intros Hn Hm H. apply (f_equal nat_of_ascii) in H. unfold hex_digit in H.
  destruct (Nat.ltb_spec n 10), (Nat.ltb_spec m 10);
    rewrite !nat_ascii_embedding in H by lia; lia.
Qed.

Lemma byte_halves c : nat_of_ascii c / 16 < 16 /\ nat_of_ascii c mod 16 < 16.
Proof.
  pose proof (nat_ascii_bounded c) as Hc. split.
  - apply Nat.Div0.div_lt_upper_bound. lia.
  - apply Nat.mod_upper_bound. lia.
Qed.

Lemma unreserved_not_delimiter c : unreserved c = true -> delimiter c = false.
Proof.
  intros Hu. unfold delimiter. cbn [existsb].
  repeat match goal with
         | |- context [Ascii.eqb c ?d] =>
             destruct (Ascii.eqb_spec c d) as [->|_]; [discriminate Hu|]
         end.
  reflexivity.
Qed.

Lemma encoded_chars d c :
  In c (list_ascii_of_string (encodeURIComponent d)) ->
  unreserved c = true \/ c = "%"%char.
Proof.
  induction d as [|x d IH]; simpl; [contradiction|].
  destruct (unreserved x) eqn:Hx; simpl.
  - intros [<-|H]; [left; exact Hx | exact (IH H)].
  - destruct (byte_halves x) as [Hhi Hlo].
    intros [<-|[<-|[<-|H]]].
    + right. reflexivity.
    + left. apply hex_digit_unreserved, Hhi.
    + left. apply hex_digit_unreserved, Hlo.
    + exact (IH H).
Qed.

(** X10. Whatever text the date field holds, the value that goes into the
    request URL after "?d=" is made of unreserved characters and percent
    signs only: it holds no [&], [=], [#], [?], [/], [+] or space, so it
    cannot end the parameter or add another one. *)
Theorem date_parameter_is_escaped (api d : string) :
  exists q : string,
    date_url api d = api ++ "/api/matches/date?d=" ++ q
    /\ (forall c : ascii,
          In c (list_ascii_of_string q) ->
          (unreserved c = true \/ c = "%"%char) /\ delimiter c = false).
Proof.
  exists (encodeURIComponent d). split; [reflexivity|].
  intros c Hc. destruct (encoded_chars d c Hc) as [Hu| ->].
  - split; [left; exact Hu | apply unreserved_not_delimiter, Hu].
  - split; [right; reflexivity | reflexivity].
Qed.

Lemma encodeURIComponent_injective d1 d2 :
  encodeURIComponent d1 = encodeURIComponent d2 -> d1 = d2.
Proof.
  revert d2. induction d1 as [|x d1 IH]; intros [|y d2]; cbn [encodeURIComponent].
  - reflexivity.
  - destruct (unreserved y); discriminate.
  - destruct (unreserved x); discriminate.
  - destruct (unreserved x) eqn:Hx, (unreserved y) eqn:Hy; intros H.
    + injection H as -> H. f_equal. apply IH, H.
    + injection H as -> _. discriminate Hx.
    + injection H as <- _. discriminate Hy.
    + injection H as Hhi Hlo H.
      destruct (byte_halves x) as [Hxh Hxl], (byte_halves y) as [Hyh Hyl].
      apply hex_digit_injective in Hhi; [|assumption..].
      apply hex_digit_injective in Hlo; [|assumption..].
      assert (Hxy : nat_of_ascii x = nat_of_ascii y).
      { assert (Hhi' : nat_of_ascii x / 16 = nat_of_ascii y / 16) by exact Hhi.
        assert (Hlo' : nat_of_ascii x mod 16 = nat_of_ascii y mod 16) by exact Hlo.
        rewrite (Nat.div_mod_eq (nat_of_ascii x) 16) at 1.
        rewrite Hhi', Hlo'. symmetry. apply Nat.div_mod_eq. }
      apply (f_equal ascii_of_nat) in Hxy. rewrite !ascii_nat_embedding in Hxy.
      subst y. f_equal. apply IH, H.
Qed.

Lemma append_cancel_l (a b c : string) : a ++ b = a ++ c -> b = c.
Proof. induction a as [|x a IH]; simpl; [trivial|]. intros H. injection H as H. exact (IH H). Qed.

(** X11. Two different dates never give the same request URL: the escaping
    loses nothing. *)
Theorem distinct_dates_distinct_requests (api d1 d2 : string) :
  d1 <> d2 -> date_url api d1 <> date_url api d2.
Proof.
  intros Hne H. apply Hne. unfold date_url in H.
  apply append_cancel_l in H.
  apply (append_cancel_l "/api/matches/date?d=") in H.
  apply encodeURIComponent_injective, H.
Qed.

(** The statement at a date and the same date followed by a second
    parameter. *)
Lemma distinct_dates_distinct_requests_witness :
  date_url local_backend "2024-05-01" <> date_url local_backend "2024-05-01&d=2024-05-02".
Proof.
  apply (distinct_dates_distinct_requests local_backend
           "2024-05-01" "2024-05-01&d=2024-05-02").
  discriminate.
Defined.

Example injected_parameter_is_escaped :
  date_url local_backend "2024-05-01&d=2024-05-02"
  = "http://127.0.0.1:8000/api/matches/date?d=2024-05-01%26d%3D2024-05-02".
Proof. reflexivity. Qed.

(** ** The date field *)

Lemma step_keeps_date_field api e ev a :
  not_an_edit ev -> date_value (ui (step api e ev a)) = date_value (ui a).
Proof.
  destruct ev as [| |text|i s]; simpl; intros Hev; try contradiction.
  - destruct (btnToday_disabled (ui a)); reflexivity.
  - destruct (btnLoad_disabled (ui a)); [reflexivity|].
    destruct (load_argument e (ui a)); reflexivity.
  - destruct (nth_error (tasks a) i) as [st|]; [|reflexivity].
    destruct (fetchJSON_resume st s) as [[st'|outcome]|]; try reflexivity.
    simpl. apply (action_finish_ends e outcome (ui a) (ui a)); reflexivity.
Qed.

Lemma run_keeps_date_field api e evs :
  Forall not_an_edit evs ->
  forall a, date_value (ui (run api e evs a)) = date_value (ui a).
Proof.
  unfold run. induction 1 as [|ev evs Hev _ IH]; intros a; simpl; [reflexivity|].
  rewrite IH. apply step_keeps_date_field, Hev.
Qed.

(** X12. After startup only the user changes the date field: through any
    clicks and settled requests that follow an edit, the field still holds
    what was typed, and the next activation of the load button requests
    exactly that date. *)
Theorem typed_date_is_what_loads
    (api : string) (e e' : env) (typed : string) (evs : list event) (a : session) :
  typed <> "" ->
  Forall not_an_edit evs ->
  let a' := run api e evs (step api e (Input typed) a) in
  date_value (ui a') = typed
  /\ (btnLoad_disabled (ui a') = false ->
      step api e' ClickLoad a' = spawn a' (fetchDate_begin api typed (ui a'))
      /\ tasks (step api e' ClickLoad a')
         = (tasks a' ++ [AwaitFetch (date_url api typed)])%list).
Proof.
  intros Htyped Hevs a'.
  assert (Hdate : date_value (ui a') = typed).
  { unfold a'. rewrite (run_keeps_date_field api e evs Hevs). reflexivity. }
  split; [exact Hdate|]. intros Henabled.
  assert (Hstep : step api e' ClickLoad a' = spawn a' (fetchDate_begin api typed (ui a'))).
  { cbn [step]. rewrite Henabled. unfold load_argument. rewrite Hdate.
    destruct (String.eqb_spec typed ""); [contradiction | reflexivity]. }
  split; [exact Hstep|]. rewrite Hstep. reflexivity.
Qed.

(** The statement for a date typed before a request for today is made and
    answered. *)
Lemma typed_date_is_what_loads_witness :
  let a' := run local_backend sample_env sample_session
              (step local_backend sample_env (Input "2023-12-25")
                 {| ui := sample_page; tasks := [] |}) in
  date_value (ui a') = "2023-12-25"
  /\ (btnLoad_disabled (ui a') = false ->
      step local_backend late_evening ClickLoad a'
      = spawn a' (fetchDate_begin local_backend "2023-12-25" (ui a'))
      /\ tasks (step local_backend late_evening ClickLoad a')
         = (tasks a' ++ [AwaitFetch (date_url local_backend "2023-12-25")])%list).
Proof.
  apply (typed_date_is_what_loads local_backend sample_env late_evening "2023-12-25"
           sample_session {| ui := sample_page; tasks := [] |}).
  - discriminate.
  - repeat constructor.
Defined.

(** ** Startup *)

(** X13. With the local clock anywhere in the years 1970 to 9999 the script
    starts up: the date field holds today's local date in the shape
    YYYY-MM-DD, the one request in flight is for <base>/api/matches/today,
    both buttons are disabled, the status announces the request and the
    list is still as served. *)
Theorem startup_requests_today (api : string) (e : env) (loaded : page) :
  clock_in_range e ->
  exists (today : string) (a : session),
    startup api e loaded = Some a
    /\ toLocalISODate e = Ok today
    /\ is_iso_date today = true
    /\ date_value (ui a) = today
    /\ tasks a = [AwaitFetch (api ++ "/api/matches/today")]
    /\ both_disabled (ui a)
    /\ status_text (ui a) = "loading /api/matches/today …"
    /\ list_items (ui a) = list_items loaded
    /\ console (ui a) = console loaded.
Proof.
  intros Hclock.
  destruct (toLocalISODate_in_range e Hclock) as (today & Htoday & Hshape).
  exists today. eexists. unfold startup. rewrite Htoday.
  split; [reflexivity|]. repeat split; assumption.
Qed.

(** The statement on the page as served, on 2024-05-01. *)
Lemma startup_requests_today_witness :
  exists (today : string) (a : session),
    startup local_backend sample_env sample_page = Some a
    /\ toLocalISODate sample_env = Ok today
    /\ is_iso_date today = true
    /\ date_value (ui a) = today
    /\ tasks a = [AwaitFetch (local_backend ++ "/api/matches/today")]
    /\ both_disabled (ui a)
    /\ status_text (ui a) = "loading /api/matches/today …"
    /\ list_items (ui a) = list_items sample_page
    /\ console (ui a) = console sample_page.
Proof.
  apply (startup_requests_today local_backend sample_env sample_page).
  unfold clock_in_range. simpl. lia.
Defined.

(** ** The local date *)

Lemma civil_year_from_1970 (days : Z) :
  (0 <= days)%Z -> (1970 <= fst (fst (civil_from_days days)))%Z.
Proof.
  intros Hd. cbv beta iota zeta delta [civil_from_days fst].
  set (z := (days + 719468)%Z).
  assert (Hz : (719468 <= z)%Z) by (subst z; lia).
  clearbody z. clear Hd days.
  set (era := (z / 146097)%Z).
  set (doe := (z - era * 146097)%Z).
  set (yoe := ((doe - doe / 1460 + doe / 36524 - doe / 146096) / 365)%Z).
  set (doy := (doe - (365 * yoe + yoe / 4 - yoe / 100))%Z).
  set (mp := ((5 * doy + 2) / 153)%Z).
  destruct (Z.ltb_spec mp 10) as [Hmp|Hmp].
  - destruct (Z.leb_spec (mp + 3) 2) as [Hm|Hm];
      subst mp doy yoe doe era; Z.div_mod_to_equations; lia.
  - destruct (Z.leb_spec (mp - 9) 2) as [Hm|Hm];
      subst mp doy yoe doe era; Z.div_mod_to_equations; lia.
Qed.

(** Within the four-digit years the first ten characters of [toISOString]
    spell the civil date of the day the time falls in. *)
Lemma toISOString_spells_date (t : Z) :
  (0 <= t < 253402300800000)%Z ->
  exists s, toISOString t = Ok s
            /\ substring 0 10 s = date_text (civil_from_days (t / ms_per_day)).
Proof.
  intros Ht. unfold toISOString.
  assert (Hclip : (Z.abs t <=? max_time)%Z = true).
  { apply Z.leb_le. unfold max_time. lia. }
  rewrite Hclip.
  assert (Hdays : (0 <= t / ms_per_day < 2932897)%Z).
  { unfold ms_per_day. Z.div_mod_to_equations. lia. }
  pose proof (civil_year_range _ Hdays) as Hy.
  destruct (civil_from_days (t / ms_per_day)) as [[y m] d]. simpl fst in Hy.
  eexists. split; [reflexivity|].
  unfold year_text, date_text.
  assert (Hfour : ((0 <=? y)%Z && (y <=? 9999)%Z) = true).
  { apply andb_true_intro. split; apply Z.leb_le; lia. }
  rewrite Hfour, padded_4, !padded_2.
  cbn [append substring]. reflexivity.
Qed.

(** X14. With the local clock in the years 1970 to 9999, toLocalISODate
    returns the civil date of the local day - the day of the instant moved
    by the time-zone offset - as YYYY-MM-DD with a month from 01 to 12 and a
    day from 01 to 31; it is the same text at every instant of one local
    day. *)
Theorem local_date_is_the_local_day (e : env) :
  clock_in_range e ->
  toLocalISODate e = Ok (date_text (civil_from_days (local_day e)))
  /\ (1970 <= fst (fst (civil_from_days (local_day e))) <= 9999)%Z
  /\ (1 <= snd (fst (civil_from_days (local_day e))) <= 12)%Z
  /\ (1 <= snd (civil_from_days (local_day e)) <= 31)%Z
  /\ (forall e' : env,
        clock_in_range e' -> local_day e' = local_day e ->
        toLocalISODate e' = toLocalISODate e).
Proof.
  assert (Hspell : forall e0, clock_in_range e0 ->
            toLocalISODate e0 = Ok (date_text (civil_from_days (local_day e0)))).
  { intros e0 Hr. unfold toLocalISODate, toLocalISODate_of, local_day.
    destruct (toISOString_spells_date _ Hr) as (s & Hs & Hdate).
    rewrite Hs. simpl rbind. rewrite Hdate. reflexivity. }
  intros Hclock.
  assert (Hdays : (0 <= local_day e < 2932897)%Z).
  { unfold local_day, ms_per_day. unfold clock_in_range in Hclock.
    Z.div_mod_to_equations. lia. }
  split; [apply Hspell, Hclock|].
  split; [split; [apply civil_year_from_1970; lia | apply civil_year_range, Hdays]|].
  split; [apply civil_month_day_range|].
  split; [apply civil_month_day_range|].
  intros e' Hclock' Hday. rewrite (Hspell e' Hclock'), (Hspell e Hclock), Hday. reflexivity.
Qed.

(** The statement five minutes before midnight UTC, two hours east of
    Greenwich. *)
Lemma local_date_is_the_local_day_witness :
  toLocalISODate late_evening = Ok (date_text (civil_from_days (local_day late_evening)))
  /\ (1970 <= fst (fst (civil_from_days (local_day late_evening))) <= 9999)%Z
  /\ (1 <= snd (fst (civil_from_days (local_day late_evening))) <= 12)%Z
  /\ (1 <= snd (civil_from_days (local_day late_evening)) <= 31)%Z
  /\ (forall e' : env,
        clock_in_range e' -> local_day e' = local_day late_evening ->
        toLocalISODate e' = toLocalISODate late_evening).
Proof.
  apply (local_date_is_the_local_day late_evening).
  unfold clock_in_range. simpl. lia.
Defined.

Example local_date_is_not_the_utc_date :
  toLocalISODate late_evening = Ok "2024-05-02"
  /\ toISOString (now late_evening) = Ok "2024-05-01T23:55:00.000Z".
Proof. split; reflexivity. Qed.

(** ** What the status line tells *)

Lemma begin_today_loading api p : loading_view (fst (fetchToday_begin api p)).
Proof. exists "today …". reflexivity. Qed.

Lemma begin_date_loading api d p : loading_view (fst (fetchDate_begin api d p)).
Proof. exists ("date?d=" ++ d ++ " …"). reflexivity. Qed.

Lemma finish_settled e outcome p : settled_view (action_finish e outcome p).
Proof.
  destruct (action_finish_ends e outcome p p eq_refl eq_refl)
    as (_ & _ & [(err & _ & Hstatus & Hlist & _)|(data & _ & _ & _ & _ & Hstarts & Hlist & _)]).
  - left. split; [|exact Hlist]. rewrite Hstatus. eexists. reflexivity.
  - right. split; assumption.
Qed.

Lemma step_view api e ev a :
  (idle a /\ settled_view (ui a)) \/ (busy a /\ loading_view (ui a)) ->
  (idle (step api e ev a) /\ settled_view (ui (step api e ev a)))
  \/ (busy (step api e ev a) /\ loading_view (ui (step api e ev a))).
Proof.
  intros Ha. destruct ev as [| |text|i s]; simpl.
  - destruct Ha as [[[Ht [Hb1 Hb2]] Hv]|[[Ht [Hb1 Hb2]] Hv]]; rewrite Hb1.
    + right. split; [|apply begin_today_loading].
      split; [|apply begin_today_disables].
      unfold spawn. simpl. rewrite Ht. eexists. reflexivity.
    + right. split; [split; [exact Ht | split; assumption] | exact Hv].
  - destruct Ha as [[[Ht [Hb1 Hb2]] Hv]|[[Ht [Hb1 Hb2]] Hv]]; rewrite Hb2.
    + destruct (load_argument e (ui a)) as [d|err].
      * right. split; [|apply begin_date_loading].
        split; [|apply begin_date_disables].
        unfold spawn. simpl. rewrite Ht. eexists. reflexivity.
      * left. split; [split; [exact Ht | split; assumption] | exact Hv].
    + right. split; [split; [exact Ht | split; assumption] | exact Hv].
  - destruct Ha as [[[Ht Hb] Hv]|[[Ht Hb] Hv]]; [left | right];
      (split; [split; simpl; assumption | exact Hv]).
  - destruct Ha as [[[Ht Hb] Hv]|[[[st Ht] Hb] Hv]].
    + rewrite Ht. destruct i; simpl; left; (split; [split; assumption | exact Hv]).
    + rewrite Ht. destruct i as [|j]; simpl.
      * destruct (fetchJSON_resume st s) as [[st'|outcome]|].
        -- right. split; [|exact Hv]. split; [|exact Hb]. simpl. eexists. reflexivity.
        -- left. split; [|apply finish_settled].
           split; [reflexivity | apply finish_enables].
        -- right. split; [|exact Hv]. split; [exists st; exact Ht | exact Hb].
      * destruct j; simpl; right;
          (split; [split; [exists st; exact Ht | exact Hb] | exact Hv]).
Qed.

Lemma reachable_view api a :
  reachable api a ->
  (idle a /\ settled_view (ui a)) \/ (busy a /\ loading_view (ui a)).
Proof.
  induction 1 as [e loaded a Hstart | e ev a _ IH].
  - right. split; [eapply startup_busy, Hstart|].
    unfold startup in Hstart. destruct (toLocalISODate e); [|discriminate].
    injection Hstart as <-. apply begin_today_loading.
  - apply step_view, IH.
Qed.

(** X15. The status line tells the state of the page through every sequence
    of clicks, edits and settlements after startup: while a request is in
    flight it reads "loading /api/matches/..."; once none is, it reads
    either "error: ..." over an empty list or "date: ..." over a list that
    is not empty.  A finished request never leaves "loading" on the
    page. *)
Theorem status_tells_the_state (api : string) (a : session) :
  reachable api a ->
  (tasks a <> [] -> loading_view (ui a))
  /\ (tasks a = [] -> settled_view (ui a)).
Proof.
  intros Hreach.
  destruct (reachable_view api a Hreach) as [[[Ht _] Hv]|[[[st Ht] _] Hv]]; rewrite Ht.
  - split; [congruence | intros _; exact Hv].
  - split; [intros _; exact Hv | discriminate].
Qed.

(** The statement once the first request has been answered. *)
Lemma status_tells_the_state_witness :
  (tasks sample_done <> [] -> loading_view (ui sample_done))
  /\ (tasks sample_done = [] -> settled_view (ui sample_done)).
Proof.
  apply (status_tells_the_state local_backend sample_done).
  unfold sample_done. apply reach_step. exact sample_pending_reachable.
Defined.

(** ** From click to completion *)

(** X16. Every request comes to an end.  From a page with no request in
    flight and the button enabled, a click followed by the settlements of
    its request leaves nothing pending and the page as the action ends it:
    buttons enabled, and either the error shown over an empty list or the
    payload rendered. *)
Theorem request_always_completes (api : string) (e : env) (x : exchange) (a : session) :
  tasks a = [] ->
  (btnToday_disabled (ui a) = false ->
   let a' := run api e (ClickToday :: settlements x) a in
   tasks a' = [] /\ ends_as e (fetchJSON (today_url api) x) (ui a) (ui a'))
  /\ (btnLoad_disabled (ui a) = false -> date_value (ui a) <> "" ->
      let a' := run api e (ClickLoad :: settlements x) a in
      tasks a' = []
      /\ ends_as e (fetchJSON (date_url api (date_value (ui a))) x) (ui a) (ui a')).
Proof.
  intros Ht. split.
  - intros Hb a'. unfold a'. rewrite (run_today_agrees api e x a Ht Hb).
    split; [reflexivity|]. cbn [ui]. unfold fetchToday, fetchToday_begin.
    apply action_finish_ends; reflexivity.
  - intros Hb Hd a'. unfold a'. rewrite (run_date_agrees api e x a Ht Hb Hd).
    split; [reflexivity|]. cbn [ui]. unfold fetchDate, fetchDate_begin.
    apply action_finish_ends; reflexivity.
Qed.

(** The statement for a response whose body does not parse, on a page that
    has already shown two records. *)
Lemma request_always_completes_witness :
  (btnToday_disabled (ui sample_done) = false ->
   let a' := run local_backend sample_env (ClickToday :: settlements malformed_body)
               sample_done in
   tasks a' = []
   /\ ends_as sample_env (fetchJSON (today_url local_backend) malformed_body)
        (ui sample_done) (ui a'))
  /\ (btnLoad_disabled (ui sample_done) = false ->
      date_value (ui sample_done) <> "" ->
      let a' := run local_backend sample_env (ClickLoad :: settlements malformed_body)
                  sample_done in
      tasks a' = []
      /\ ends_as sample_env
           (fetchJSON (date_url local_backend (date_value (ui sample_done)))
              malformed_body)
           (ui sample_done) (ui a')).
Proof.
  apply (request_always_completes local_backend sample_env malformed_body sample_done).
  reflexivity.
Defined.

Example malformed_body_shown :
  ui (run local_backend sample_env (ClickToday :: settlements malformed_body)
        {| ui := sample_page; tasks := [] |})
  = {| date_value := "";
       btnToday_disabled := false;
       btnLoad_disabled := false;
       status_text := "error: Unexpected token '<'";
       list_items := [];
       console := [Rejected "Unexpected token '<'"] |}.
Proof. reflexivity. Qed.

(** ** A [matches] field that is a string *)




